(** * message_ix_models.testing: fixtures and helpers, embedded in Rocq

    A shallow embedding of [message_ix_models/testing.py] and of the
    tests in [message_ix_models/tests/util/test_context.py].  Python
    objects that are mutated in place are threaded explicitly as state;
    a Python exception is an alternative result of a computation. *)

From Stdlib Require Import ZArith List String Ascii Bool Lia.
From stdpp Require Import base option gmap strings list pretty.
Import ListNotations.

Local Open Scope string_scope.
Local Open Scope list_scope.
Local Open Scope Z_scope.

Local Set Warnings "-register-all".

(** ** Python values, exceptions and computations *)

Module Py.

(** An exception object: its class, its argument and the exception
    that was being handled when it was raised ([__context__]). *)
Inductive exc : Type :=
| Exc (cls : string) (arg : string) (context : option exc).

Definition exc_class (e : exc) : string :=
  match e with Exc c _ _ => c end.

Definition exc_context (e : exc) : option exc :=
  match e with Exc _ _ c => c end.

Definition AttributeError (arg : string) : exc := Exc "AttributeError" arg None.
Definition TypeError (arg : string) : exc := Exc "TypeError" arg None.
Definition ValueError (arg : string) : exc := Exc "ValueError" arg None.
Definition KeyError (arg : string) : exc := Exc "KeyError" arg None.
Definition AssertionError (arg : string) : exc := Exc "AssertionError" arg None.

(** The values that appear as options, arguments and settings. *)
Inductive value : Type :=
| VNone
| VBool (b : bool)
| VInt (z : Z)
| VStr (s : string)
| VList (l : list value).

(** A call either returns or raises. *)
Inductive outcome (A : Type) : Type :=
| Return (a : A)
| Raise (e : exc).
Arguments Return {A} a.
Arguments Raise {A} e.

(** Computations over a mutable state [S]. *)
Definition M (S A : Type) : Type := S -> outcome A * S.

Definition ret {S A} (a : A) : M S A := fun s => (Return a, s).

Definition raise {S A} (e : exc) : M S A := fun s => (Raise e, s).

Definition bind {S A B} (m : M S A) (k : A -> M S B) : M S B :=
  fun s =>
    match m s with
    | (Return a, s') => k a s'
    | (Raise e, s') => (Raise e, s')
    end.

Definition get {S} : M S S := fun s => (Return s, s).

Definition put {S} (s : S) : M S unit := fun _ => (Return tt, s).

Definition modify {S} (f : S -> S) : M S unit := fun s => (Return tt, f s).

(** [try: body / except cls: handler]; other classes propagate. *)
Definition try_except {S A} (body : M S A) (cls : string)
    (handler : M S A) : M S A :=
  fun s =>
    match body s with
    | (Return a, s') => (Return a, s')
    | (Raise e, s') =>
        if String.eqb (exc_class e) cls then handler s' else (Raise e, s')
    end.

(** [try: body / finally: cleanup], for a cleanup that cannot raise. *)
Definition try_finally {S A} (body : M S A) (cleanup : S -> S) : M S A :=
  fun s => let '(o, s') := body s in (o, cleanup s').

(** [raise v] for an arbitrary object [v]: only exceptions can be
    raised, anything else (here: [None]) is a [TypeError]. *)
Definition raise_object {S A} (v : option exc) : M S A :=
  match v with
  | Some e => raise e
  | None => raise (TypeError "exceptions must derive from BaseException")
  end.

End Py.

Import Py.

Declare Scope py_scope.
Delimit Scope py_scope with py.
Notation "x <- m ;; k" := (bind m (fun x => k))
  (at level 100, m at next level, right associativity) : py_scope.
Notation "m ;;; k" := (bind m (fun _ => k))
  (at level 100, right associativity) : py_scope.
Local Open Scope py_scope.

(** ** [pathlib]: pure POSIX paths

    A path is its root (empty, ["/"] or ["//"]) and the names below it.
    [joinpath] parses its arguments from the right and stops at the
    last anchored one, as [pathlib] does. *)

Module Pathlib.

Record Path : Type := mkPath { root : string; names : list string }.

Definition sep : ascii := "/"%char.

(** [rel.split(sep)] *)
Fixpoint split (s : string) : list string :=
  match s with
  | EmptyString => [EmptyString]
  | String c t =>
      if Ascii.eqb c sep then EmptyString :: split t
      else match split t with
           | h :: r => String c h :: r
           | [] => [String c EmptyString]
           end
  end.

(** [part.lstrip(sep)] *)
Fixpoint lstrip (s : string) : string :=
  match s with
  | String c t => if Ascii.eqb c sep then lstrip t else s
  | EmptyString => s
  end.

(** [splitroot]: exactly two leading separators are kept as root ["//"],
    any other number collapses to ["/"]. *)
Definition splitroot (part : string) : string * string :=
  match part with
  | String c _ =>
      if Ascii.eqb c sep then
        let stripped := lstrip part in
        if Nat.eqb (String.length part - String.length stripped)%nat 2%nat
        then ("//", stripped) else ("/", stripped)
      else (EmptyString, part)
  | EmptyString => (EmptyString, part)
  end.

Definition is_name (x : string) : bool :=
  negb (String.eqb x EmptyString) && negb (String.eqb x ".").

Definition part_names (rel : string) : list string :=
  List.filter is_name (split rel).

(** [parse_parts]: later arguments win as soon as one has a root. *)
Fixpoint parse_parts (segs : list string) : string * list string :=
  match segs with
  | [] => (EmptyString, [])
  | s :: rest =>
      let '(r, ns) := parse_parts rest in
      if negb (String.eqb r EmptyString) then (r, ns)
      else let '(r1, rel) := splitroot s in (r1, part_names rel ++ ns)
  end.

Definition joinpath (p : Path) (segs : list string) : Path :=
  let '(r2, ns2) := parse_parts segs in
  if negb (String.eqb r2 EmptyString) then mkPath r2 ns2
  else mkPath (root p) (names p ++ ns2).

(** [p / key] *)
Definition truediv (p : Path) (key : string) : Path := joinpath p [key].

(** [Path(s)] *)
Definition of_string (s : string) : Path := joinpath (mkPath EmptyString []) [s].

Definition eqb (p q : Path) : bool :=
  String.eqb (root p) (root q) && bool_decide (names p = names q).

End Pathlib.

Import Pathlib.

(** ** [util.context.Context]

    The class itself lives in [message_ix_models/util/context.py]; the
    fixtures and tests below only use it.  Its data model and the
    operations they call are written down here. *)

Module Ctx.

(** Modelled from the spec: the [Context] class of [util/context.py]:
    a mapping from option name to value with the additional named
    fields [cache_path], [local_data], [platform_info] and
    [scenario_info]. *)
Record Context : Type := mkContext {
  options : gmap string value;
  cache_path : Path;
  local_data : Path;
  platform_info : gmap string string;
  scenario_info : gmap string string
}.

Definition set_options (o : gmap string value) (c : Context) : Context :=
  mkContext o (cache_path c) (local_data c) (platform_info c) (scenario_info c).

Definition set_cache_path (p : Path) (c : Context) : Context :=
  mkContext (options c) p (local_data c) (platform_info c) (scenario_info c).

Definition set_local_data (p : Path) (c : Context) : Context :=
  mkContext (options c) (cache_path c) p (platform_info c) (scenario_info c).

Definition set_platform_info (i : gmap string string) (c : Context) : Context :=
  mkContext (options c) (cache_path c) (local_data c) i (scenario_info c).

Definition set_scenario_info (i : gmap string string) (c : Context) : Context :=
  mkContext (options c) (cache_path c) (local_data c) (platform_info c) i.

(** Modelled from the spec: [Context.setdefault(key, default)] of
    [util/context.py]: if [key] is unset, store [default] and return it;
    else return the existing value.  No error. *)
Definition setdefault (key : string) (default : value) : M Context value :=
  c <- get ;;
  match options c !! key with
  | Some v => ret v
  | None => put (set_options (<[key := default]> (options c)) c) ;;; ret default
  end.

(** Modelled from the spec: attribute-style get on a [Context] of
    [util/context.py]: fails with an attribute-not-found error if the
    key was never set. *)
Definition getattr (name : string) : M Context value :=
  c <- get ;;
  match options c !! name with
  | Some v => ret v
  | None => raise (AttributeError name)
  end.

(** Modelled from the spec: [Context.get_cache_path] of
    [util/context.py], called with any number of path parts: returns
    [local_data] joined with "cache" and then with the parts, a path
    join of the current field value, without I/O. *)
Definition get_cache_path (c : Context) (parts : list string) : Path :=
  joinpath (local_data c) ("cache" :: parts).

(** Modelled from the spec: deep copy of a [Context]: identical field
    values with an independent identity.  Values of the embedding have
    no identity, so the copy is the value itself. *)
Definition deepcopy (c : Context) : Context := c.

End Ctx.

Import Ctx.

(** ** The tests of [tests/util/test_context.py] *)

Module TestContext.

(** [with pytest.raises(cls): body] *)
Definition pytest_raises {S A} (cls : string) (body : M S A) : M S unit :=
  fun s =>
    match body s with
    | (Return _, s') => (Raise (Exc "Failed" ("DID NOT RAISE " +:+ cls) None), s')
    | (Raise e, s') =>
        if String.eqb (exc_class e) cls then (Return tt, s') else (Raise e, s')
    end.

(** [assert b] *)
Definition assert {S} (b : bool) : M S unit :=
  if b then ret tt else raise (AssertionError EmptyString).

Definition value_eqb (a b : value) : bool :=
  match a, b with
  | VInt x, VInt y => Z.eqb x y
  | VStr x, VStr y => String.eqb x y
  | VBool x, VBool y => Bool.eqb x y
  | VNone, VNone => true
  | _, _ => false
  end.

Definition test_default_value : M Context unit :=
  (* Setting is missing *)
  pytest_raises "AttributeError" (getattr "foo") ;;;
  (* setdefault() returns the new value *)
  v1 <- setdefault "foo" (VInt 23) ;;
  assert (value_eqb v1 (VInt 23)) ;;;
  (* setdefault() returns the existing value *)
  v2 <- setdefault "foo" (VInt 45) ;;
  assert (value_eqb v2 (VInt 23)) ;;;
  (* Attribute access works *)
  v3 <- getattr "foo" ;;
  assert (value_eqb v3 (VInt 23)).

Definition test_deepcopy (session_context : Context) : M unit unit :=
  let ld := local_data session_context in
  let c := deepcopy session_context in
  assert (Pathlib.eqb ld (local_data c)).

Definition test_get_cache_path : M Context unit :=
  test_context <- get ;;
  let base := local_data test_context in
  assert (Pathlib.eqb (joinpath base ["cache"; "pytest"; "bar.pkl"])
                      (get_cache_path test_context ["pytest"; "bar.pkl"])).

End TestContext.

(** ** [CliRunner]: the CLI test runner *)

Module Cli.

Definition traceback : Type := list string.

(** [click.testing.Result]: exit code, exception info and output. *)
Record Result : Type := mkResult {
  exit_code : Z;
  exc_info : option (string * exc * traceback);
  output : string
}.

(** The [*args, **kwargs] of a call. *)
Record call_args : Type := mkArgs {
  args : list value;
  kwargs : list (string * value)
}.

Definition no_args : call_args := mkArgs [] [].

(** A runner instance.  [last_result] is an instance attribute that no
    constructor assigns: [None] is the attribute being absent. *)
Record CliRunner : Type := mkRunner {
  env : gmap string string;
  last_result : option Result
}.

Definition set_last_result (r : Result) (c : CliRunner) : CliRunner :=
  mkRunner (env c) (Some r).

(** The fixture [mix_models_cli]: [CliRunner(env=tmp_env)]. *)
Definition mix_models_cli (tmp_env : gmap string string) : CliRunner :=
  mkRunner tmp_env None.

(** The process the runner lives in: the global log level and whatever
    else ([Env]) an invoked command can change. *)
Record process (Env : Type) : Type := mkProcess {
  log_level : Z;
  rest : Env
}.
Arguments mkProcess {Env} _ _.
Arguments log_level {Env} _.
Arguments rest {Env} _.

Record state (Env : Type) : Type := mkState {
  self : CliRunner;
  proc : process Env
}.
Arguments mkState {Env} _ _.
Arguments self {Env} _.
Arguments proc {Env} _.

(** [click.testing.CliRunner.invoke] applied to [cli.main]: the
    invocation harness, external to this module.  It sees the runner's
    environment and the arguments, acts on the process, and either
    returns a [Result] or lets an exception through. *)
Class Harness (Env : Type) : Type :=
  super_invoke : gmap string string -> call_args -> M (process Env) Result.

Section Runner.
Context {Env : Type} `{!Harness Env}.

Definition on_process {A} (m : M (process Env) A) : M (state Env) A :=
  fun s => let '(o, p) := m (proc s) in (o, mkState (self s) p).

Definition set_level (level : Z) (s : state Env) : state Env :=
  mkState (self s) (mkProcess level (rest (proc s))).

(** Modelled from the spec: the decorator [preserve_log_level] of
    [util/_logging.py]: wraps the call so that any change made to the
    global log level is reverted afterward, regardless of success or
    failure. *)
Definition preserve_log_level {A} (body : M (state Env) A) : M (state Env) A :=
  s <- get ;;
  let level := log_level (proc s) in
  try_finally body (set_level level).

Definition invoke (a : call_args) : M (state Env) Result :=
  preserve_log_level (
    s <- get ;;
    result <- on_process (super_invoke (env (self s)) a) ;;
    (* Store the result to be used by assert_exit_0() *)
    modify (fun s => mkState (set_last_result result (self s)) (proc s)) ;;;
    ret result).

Definition assert_exit_0 (a : call_args) : M (state Env) Result :=
  (if Nat.eqb (length (args a) + length (kwargs a)) 0 then ret tt
   else invoke a ;;; ret tt) ;;;
  s <- get ;;
  match last_result (self s) with
  | None =>
      raise (AttributeError "'CliRunner' object has no attribute 'last_result'")
  | Some r =>
      if negb (exit_code r =? 0) then
        (* Re-raise the exception triggered within the CLI invocation *)
        match exc_info r with
        | Some (_, v, _) => raise_object (exc_context v)
        | None => raise (TypeError "'NoneType' object is not subscriptable")
        end
      else ret r
  end.

End Runner.

(** *** The harness as [click] documents it

    What the command does when called, and how [click] captures it:
    a [ClickException] is shown and turned into [sys.exit(code)] inside
    its handler, so the captured [SystemExit] has it as [__context__];
    any other exception is captured as it is, with exit code 1. *)
Inductive behaviour : Type :=
| Completes (out : string)
| Exits (code : Z)
| RaisesClick (e : exc) (code : Z)
| RaisesOther (e : exc).

Definition SystemExit (code : Z) (context : option exc) : exc :=
  Exc "SystemExit" (pretty code) context.

Definition capture (b : behaviour) : Result :=
  match b with
  | Completes out => mkResult 0 None out
  | Exits code =>
      mkResult code (Some ("SystemExit", SystemExit code None, [])) EmptyString
  | RaisesClick e code =>
      mkResult code (Some ("SystemExit", SystemExit code (Some e), [])) EmptyString
  | RaisesOther e => mkResult 1 (Some (exc_class e, e, [])) EmptyString
  end.

(** A command line is run by [main], which may set the log level. *)
Definition click_harness {Env : Type}
    (main : list value -> behaviour * option Z) : Harness Env :=
  fun _ a p =>
    let '(b, lvl) := main (args a) in
    (Return (capture b),
     mkProcess (match lvl with Some l => l | None => log_level p end) (rest p)).

(** A runner that has not invoked anything, in a process of its own. *)
Definition fresh : state unit := mkState (mix_models_cli ∅) (mkProcess 30 tt).

(** A command line whose [fail] command raises [RuntimeError] from
    within its implementation. *)
Definition failing_main (argv : list value) : behaviour * option Z :=
  match argv with
  | [VList [VStr "fail"]] => (RaisesOther (Exc "RuntimeError" "boom" None), None)
  | _ => (Completes "ok", None)
  end.

End Cli.

(** ** pytest hooks and the session fixtures *)

Module Session.

(** *** The command-line parser of pytest *)

Record OptSpec : Type := mkOpt {
  opt_flag : string;
  opt_action : string;
  opt_help : string
}.

Definition Parser : Type := list OptSpec.

(** [parser.addoption(flag, action=..., help=...)] *)
Definition addoption (flag action help : string) (parser : Parser) : Parser :=
  parser ++ [mkOpt flag action help].

Definition pytest_addoption (parser : Parser) : Parser :=
  addoption "--local-cache" "store_true"
            "Use existing local cache files in tests" parser.

(** The attribute name of an option: the flag without its leading
    dashes, the others turned into underscores. *)
Fixpoint dashes_to_underscores (s : string) : string :=
  match s with
  | EmptyString => EmptyString
  | String c t =>
      String (if Ascii.eqb c "-"%char then "_"%char else c)
             (dashes_to_underscores t)
  end.

Fixpoint strip_dashes (s : string) : string :=
  match s with
  | String c t => if Ascii.eqb c "-"%char then strip_dashes t else s
  | EmptyString => s
  end.

Definition dest (flag : string) : string :=
  dashes_to_underscores (strip_dashes flag).

(** A [store_true] option is [True] when its flag is on the command
    line and [False] otherwise. *)
Definition parse_option (argv : list string) (o : OptSpec) : string * value :=
  if String.eqb (opt_action o) "store_true"
  then (dest (opt_flag o), VBool (bool_decide (opt_flag o ∈ argv)))
  else (dest (opt_flag o), VNone).

Definition parse_args (parser : Parser) (argv : list string)
    : gmap string value :=
  list_to_map (map (parse_option argv) parser).

Record Config : Type := mkConfig {
  opts : gmap string value;
  basetemp : Path
}.

(** The [request] fixture: its configuration and, for a request made by
    a test function, the name of the test node. *)
Record Request : Type := mkRequest {
  config : Config;
  node : option string
}.

(** The request of a session started with [argv], with the options of
    this plugin registered. *)
Definition session_request (argv : list string) (tmp : Path) : Request :=
  mkRequest (mkConfig (parse_args (pytest_addoption []) argv) tmp) None.

Definition truthy (v : value) : bool :=
  match v with
  | VNone => false
  | VBool b => b
  | VInt z => negb (z =? 0)
  | VStr s => negb (String.eqb s EmptyString)
  | VList l => negb (Nat.eqb (length l) 0)
  end.

(** *** The process: ixmp configuration and connections *)

Inductive event : Type :=
| AddPlatform (name : string)
| OpenDb (name : string)
| CloseDb (name : string)
| RemovePlatform (name : string)
| RanTest (name : string) (passed : bool).

Global Instance event_eq_dec : EqDecision event.
Proof. solve_decision. Defined.

Record world : Type := mkWorld {
  only : Context;
  platform_cfg : gmap string (gmap string string);
  open_dbs : gset string;
  tmp_made : nat;
  log : list event
}.

Definition set_only (c : Context) (w : world) : world :=
  mkWorld c (platform_cfg w) (open_dbs w) (tmp_made w) (log w).

Definition set_platform_cfg (p : gmap string (gmap string string)) (w : world)
    : world :=
  mkWorld (only w) p (open_dbs w) (tmp_made w) (log w).

Definition set_open_dbs (o : gset string) (w : world) : world :=
  mkWorld (only w) (platform_cfg w) o (tmp_made w) (log w).

Definition set_tmp_made (n : nat) (w : world) : world :=
  mkWorld (only w) (platform_cfg w) (open_dbs w) n (log w).

Definition emit (e : event) (w : world) : world :=
  mkWorld (only w) (platform_cfg w) (open_dbs w) (tmp_made w) (log w ++ [e]).

(** Whether the database behind a platform entry can be reached: [None]
    when the connection is made, else the connection error. *)
Class Backend : Type :=
  jdbc_connect : gmap string string -> option exc.

Section Fixtures.
Context `{!Backend}.

(** [tmp_path_factory.mktemp(basename)]: a new numbered directory. *)
Definition mktemp (cfg : Config) (basename : string) : M world Path :=
  w <- get ;;
  put (set_tmp_made (S (tmp_made w)) w) ;;;
  ret (truediv (basetemp cfg) (basename +:+ pretty (tmp_made w))).

(** [request.config.option.<name>]; [opts] is the [option] namespace. *)
Definition config_option (cfg : Config) (name : string) : M world value :=
  match opts cfg !! name with
  | Some v => ret v
  | None => raise (AttributeError name)
  end.

(** [ixmp_config.values["platform"][name] = info] *)
Definition assign_platform (name : string) (info : gmap string string)
    : M world unit :=
  w <- get ;;
  put (emit (AddPlatform name)
         (set_platform_cfg (<[name := info]> (platform_cfg w)) w)).

Definition connect (name : string) : M world unit :=
  w <- get ;;
  match platform_cfg w !! name with
  | None => raise (ValueError ("platform name " +:+ name +:+ " not among configured"))
  | Some info =>
      match jdbc_connect info with
      | Some e => raise e
      | None => put (emit (OpenDb name) (set_open_dbs ({[name]} ∪ open_dbs w) w))
      end
  end.

(** [Platform(name=name)]: looks the name up and connects. *)
Definition Platform (name : string) : M world string :=
  connect name ;;; ret name.

(** [mp.open_db()]: reconnects if closed. *)
Definition open_db (mp : string) : M world unit :=
  w <- get ;;
  if bool_decide (mp ∈ open_dbs w) then ret tt else connect mp.

(** Modelled from the spec: [Context.close_db] of [util/context.py]:
    closes the connection of the platform the context refers to. *)
Definition close_db : M world unit :=
  w <- get ;;
  match platform_info (only w) !! "name" with
  | Some name =>
      if bool_decide (name ∈ open_dbs w)
      then put (emit (CloseDb name) (set_open_dbs (open_dbs w ∖ {[name]}) w))
      else ret tt
  | None => ret tt
  end.

(** [ixmp_config.remove_platform(name)]: pops the entry. *)
Definition remove_platform (name : string) : M world unit :=
  w <- get ;;
  match platform_cfg w !! name with
  | Some _ =>
      put (emit (RemovePlatform name)
             (set_platform_cfg (delete name (platform_cfg w)) w))
  | None => raise (KeyError name)
  end.

Definition platform_name : string := "message-ix-models".

Definition platform_entry : gmap string string :=
  list_to_map [("class", "jdbc"); ("driver", "hsqldb");
               ("url", "jdbc:hsqldb:mem://" +:+ platform_name)].

(** [session_context], up to its [yield]. *)
Definition session_context_setup (request : Request) : M world unit :=
  (* ctx = Context.only() is [only] of the world throughout *)
  (* Temporary, empty local directory for local data *)
  session_tmp_dir <- mktemp (config request) "data" ;;
  (* Set the cache path according to whether pytest --local-cache was given *)
  local_cache <- config_option (config request) "local_cache" ;;
  modify (fun w =>
    set_only (set_cache_path
                (joinpath (if truthy local_cache then local_data (only w)
                           else session_tmp_dir) ["cache"])
                (only w)) w) ;;;
  (* Other local data in the temporary directory *)
  modify (fun w => set_only (set_local_data session_tmp_dir (only w)) w) ;;;
  (* Add a platform connected to an in-memory database *)
  assign_platform platform_name platform_entry ;;;
  (* Launch Platform and connect to testdb (reconnect if closed) *)
  mp <- Platform platform_name ;;
  open_db mp ;;;
  modify (fun w =>
    set_only (set_platform_info
                (<["name" := platform_name]> (platform_info (only w)))
                (only w)) w).

(** [session_context], after its [yield]. *)
Definition session_context_teardown : M world unit :=
  close_db ;;;
  remove_platform platform_name.

(** A test function: its node name and its body, which works on the
    context it is given. *)
Definition test : Type := string * M Context unit.

Definition passed {A} (o : outcome A) : bool :=
  match o with Return _ => true | Raise _ => false end.

(** Modelled from the spec: [Context.delete] of [util/context.py]:
    releases the resources the context itself holds; the connection of
    the session is shared and stays open until the session ends. *)
Definition Context_delete (ctx : Context) : M world unit := ret tt.

(** One test run with the [test_context] fixture: a copy of the session
    context, deleted afterwards, whatever the test did. *)
Definition run_test (t : test) : M world unit :=
  w <- get ;;
  let ctx := deepcopy (only w) in
  let '(o, ctx') := snd t ctx in
  Context_delete ctx' ;;;
  modify (emit (RanTest (fst t) (passed o))).

(** What the session records for a test run on a copy of [ctx]. *)
Definition test_event (ctx : Context) (t : test) : event :=
  RanTest (fst t) (passed (fst (snd t (deepcopy ctx)))).

Fixpoint run_tests (ts : list test) : M world unit :=
  match ts with
  | [] => ret tt
  | t :: ts' => run_test t ;;; run_tests ts'
  end.

(** The life of the fixture once it is requested: set up, the tests,
    tear down.  A failing test is recorded and does not stop the
    session; an error during set-up does, and nothing after the [yield]
    is run. *)
Definition run_session (request : Request) (ts : list test) : M world unit :=
  session_context_setup request ;;;
  run_tests ts ;;;
  session_context_teardown.

(** A test session.  pytest creates a session fixture when the first
    test that requests it is about to run and finalizes it when the
    session ends; [ts] are the tests that request [session_context],
    and a session without any never creates the fixture. *)
Definition pytest_session (request : Request) (ts : list test) : M world unit :=
  match ts with
  | [] => ret tt
  | _ :: _ => run_session request ts
  end.

End Fixtures.

(** The directory that [mktemp] hands out in [w]. *)
Definition session_tmp_dir (tmp : Path) (w : world) : Path :=
  truediv tmp ("data" +:+ pretty (tmp_made w)).

(** The session context once its paths are set. *)
Definition with_paths (argv : list string) (tmp : Path) (w : world) : Context :=
  set_local_data (session_tmp_dir tmp w)
    (set_cache_path
       (joinpath (if bool_decide ("--local-cache" ∈ argv)
                  then local_data (only w) else session_tmp_dir tmp w)
                 ["cache"])
       (only w)).

(** The world once the platform entry is written. *)
Definition registered (argv : list string) (tmp : Path) (w : world) : world :=
  mkWorld (with_paths argv tmp w)
          (<[platform_name := platform_entry]> (platform_cfg w))
          (open_dbs w) (S (tmp_made w))
          (log w ++ [AddPlatform platform_name]).

(** The world at the [yield]. *)
Definition yielded (argv : list string) (tmp : Path) (w : world) : world :=
  mkWorld (set_platform_info
             (<["name" := platform_name]> (platform_info (only w)))
             (with_paths argv tmp w))
          (<[platform_name := platform_entry]> (platform_cfg w))
          ({[platform_name]} ∪ open_dbs w) (S (tmp_made w))
          ((log w ++ [AddPlatform platform_name]) ++ [OpenDb platform_name]).

(** The events of a whole session. *)
Definition session_events (ctx : Context) (ts : list test) : list event :=
  [AddPlatform platform_name; OpenDb platform_name]
    ++ map (test_event ctx) ts
    ++ [CloseDb platform_name; RemovePlatform platform_name].

(** The events a run has added to the log of [w]. *)
Definition new_events (w w' : world) : list event :=
  drop (length (log w)) (log w').

Definition count (e : event) (l : list event) : nat :=
  count_occ event_eq_dec l e.

End Session.

(** ** [bare_res]: the scenario builder helper *)

Module Bare.

(** A scenario object: a handle on one version of a (model, scenario)
    pair stored on the platform. *)
Record Scenario : Type := mkScenario {
  model : string;
  scenario : string;
  version : nat
}.

Global Instance Scenario_eq_dec : EqDecision Scenario.
Proof. solve_decision. Defined.

Definition key (s : Scenario) : string * string * nat :=
  (model s, scenario s, version s).

(** The platform: for each stored version whether it has a solution,
    and for each pair the version that a look-up loads and the last
    version that was made. *)
Record Db : Type := mkDb {
  runs : gmap (string * string * nat) bool;
  defaults : gmap (string * string) nat;
  last_version : gmap (string * string) nat
}.

(** The calls made to the modelling library, in order. *)
Inductive call : Type :=
| Load (model scenario : string)
| Create (model scenario : string)
| Solve (s : Scenario) (solve_options : list (string * Z)) (quiet : bool)
| Clone (s : Scenario) (scenario : string) (keep_solution : bool).

Global Instance call_eq_dec : EqDecision call.
Proof. solve_decision. Defined.

Record state : Type := mkState {
  context : Context;
  db : Db;
  calls : list call
}.

Definition set_context (c : Context) (s : state) : state :=
  mkState c (db s) (calls s).

Definition set_db (d : Db) (s : state) : state :=
  mkState (context s) d (calls s).

Definition record (c : call) (s : state) : state :=
  mkState (context s) (db s) (calls s ++ [c]).

(** What [model.bare] brings: its default settings and the name it
    derives from a context. *)
Class BareModule : Type := {
  SETTINGS : gmap string value;
  name : Context -> string
}.

Section BareRes.
Context `{!BareModule}.

(** Modelled from the spec: [Context.use_defaults] of
    [util/context.py] applied to [bare.SETTINGS]: merges the settings
    the caller provided with the defaults. *)
Definition use_defaults (settings : gmap string value) : M state unit :=
  modify (fun s =>
    set_context (set_options (options (context s) ∪ settings) (context s)) s).

(** [message_ix.Scenario(mp, model, scenario)]: the version that a
    look-up without a version number loads, or [ValueError] when the
    pair is not on the platform. *)
Definition load_Scenario (m sc : string) : M state Scenario :=
  modify (record (Load m sc)) ;;;
  s <- get ;;
  match defaults (db s) !! (m, sc) with
  | Some v => ret (mkScenario m sc v)
  | None => raise (ValueError ("scenario not found: " +:+ m +:+ "/" +:+ sc))
  end.

Definition next_version (d : Db) (m sc : string) : nat :=
  S (default 0%nat (last_version d !! (m, sc))).

Definition add_run (s : Scenario) (solution : bool) (d : Db) : Db :=
  mkDb (<[key s := solution]> (runs d)) (defaults d)
       (<[(model s, scenario s) := version s]> (last_version d)).

Definition set_as_default (s : Scenario) (d : Db) : Db :=
  mkDb (runs d) (<[(model s, scenario s) := version s]> (defaults d))
       (last_version d).

(** Modelled from the spec: [bare.create_res] of [model/bare.py]:
    constructs the scenario named by [context.scenario_info] fresh: a
    new default version without a solution. *)
Definition create_res : M state Scenario :=
  s <- get ;;
  match scenario_info (context s) !! "model",
        scenario_info (context s) !! "scenario" with
  | Some m, Some sc =>
      let new := mkScenario m sc (next_version (db s) m sc) in
      put (record (Create m sc)
             (set_db (set_as_default new (add_run new false (db s))) s)) ;;;
      ret new
  | _, _ => raise (KeyError "scenario_info")
  end.

(** [base.has_solution()] *)
Definition has_solution (base : Scenario) : M state bool :=
  s <- get ;;
  ret (default false (runs (db s) !! key base)).

(** [base.solve(solve_options=..., quiet=...)] *)
Definition solve (base : Scenario) (solve_options : list (string * Z))
    (quiet : bool) : M state unit :=
  modify (fun s =>
    record (Solve base solve_options quiet)
      (set_db (mkDb (<[key base := true]> (runs (db s))) (defaults (db s))
                    (last_version (db s))) s)).

(** [base.clone(scenario=..., keep_solution=...)]: a new version under
    the same model name, which is the version that a later look-up of
    its (model, scenario) pair loads. *)
Definition clone (base : Scenario) (new_name : string) (keep_solution : bool)
    : M state Scenario :=
  s <- get ;;
  let new := mkScenario (model base) new_name
               (next_version (db s) (model base) new_name) in
  let solution :=
    keep_solution && default false (runs (db s) !! key base) in
  put (record (Clone base new_name keep_solution)
         (set_db (set_as_default new (add_run new solution (db s))) s)) ;;;
  ret new.

(** [request.node.name], for a [request] that may be [None] or carry no
    test node. *)
Definition node_name (request : option Session.Request) : M state string :=
  match request with
  | Some r =>
      match Session.node r with
      | Some n => ret n
      | None => raise (AttributeError "name")
      end
  | None => raise (AttributeError "'NoneType' object has no attribute 'node'")
  end.

Definition bare_res (request : option Session.Request) (solved : bool)
    : M state Scenario :=
  use_defaults SETTINGS ;;;
  s <- get ;;
  let name := name (context s) in
  (* mp = context.get_platform() is [db] of the state throughout *)
  base <- try_except (load_Scenario name "baseline") "ValueError"
            ((* Create 'name/baseline' for testing *)
             modify (fun s =>
               set_context
                 (set_scenario_info
                    (list_to_map [("model", name); ("scenario", "baseline")]
                       ∪ scenario_info (context s))
                    (context s)) s) ;;;
             create_res) ;;
  (if solved
   then solution <- has_solution base ;;
        if negb solution
        then (* Solve *) solve base [("lpmethod", 4)] true
        else ret tt
   else ret tt) ;;;
  new_name <- try_except (node_name request) "AttributeError" (ret "baseline") ;;
  (* Clone to 'name/new_name' *)
  clone base new_name solved.

(** The context once the defaults are merged in. *)
Definition merged (s : state) : Context :=
  set_options (options (context s) ∪ SETTINGS) (context s).

End BareRes.

(** The name of the test node of a request, "baseline" without one. *)
Definition new_name_of (request : option Session.Request) : string :=
  match request with
  | Some r => default "baseline" (Session.node r)
  | None => "baseline"
  end.

End Bare.

(** ** [export_test_data]: the data export helper *)

Module ExportData.

(** [needle in hay] for two Python strings. *)
Fixpoint contains (needle hay : string) : bool :=
  String.prefix needle hay ||
  match hay with
  | EmptyString => false
  | String _ t => contains needle t
  end.

(** A data frame: its columns and its rows, a row giving the cell of
    each column. *)
Record DataFrame : Type := mkDataFrame {
  columns : list string;
  rows : list (gmap string string)
}.

(** A workbook: its sheets by name, in order. *)
Definition Workbook : Type := list (string * DataFrame).

Definition Filters : Type := list (string * list string).

(** What the function asks of the scenario it exports. *)
Record Scenario : Type := mkScenario {
  to_excel : Filters -> Workbook;
  par_list : list string;
  idx_names : string -> list string
}.

(** A file on disk: a workbook, or a file without content. *)
Inductive File : Type :=
| Xlsx (wb : Workbook)
| NoBytes.

Record world : Type := mkWorld {
  scenarios : gmap (string * string) Scenario;
  files : gmap string File
}.

Definition write_file (path : string) (f : File) (w : world) : world :=
  mkWorld (scenarios w) (<[path := f]> (files w)).

(** [message_ix.Scenario(mp, model, scenario)] *)
Definition load_Scenario (m sc : string) : M world Scenario :=
  w <- get ;;
  match scenarios w !! (m, sc) with
  | Some s => ret s
  | None => raise (ValueError ("scenario not found: " +:+ m +:+ "/" +:+ sc))
  end.

Definition BadZipFile : exc := Exc "BadZipFile" "File is not a zip file" None.

(** A reader holds the path it was opened on and the names of the
    sheets it found there; a sheet is read from the file when it is
    parsed. *)
Record Reader : Type := mkReader {
  reader_path : string;
  sheet_names : list string
}.

(** A writer holds the path it was opened on and the sheets written to
    it so far. *)
Record Writer : Type := mkWriter {
  writer_path : string;
  written : Workbook
}.

(** [pd.ExcelFile(path)] *)
Definition ExcelFile (path : string) : M world Reader :=
  w <- get ;;
  match files w !! path with
  | Some (Xlsx wb) => ret (mkReader path (map fst wb))
  | Some NoBytes => raise BadZipFile
  | None => raise (Exc "FileNotFoundError" path None)
  end.

(** [pd.ExcelWriter(path)]: the file is opened for writing, which
    leaves it without content until the writer is saved. *)
Definition ExcelWriter (path : string) : M world Writer :=
  modify (write_file path NoBytes) ;;;
  ret (mkWriter path []).

(** [reader.parse(sheet)]: the sheet as the file has it now. *)
Definition parse (reader : Reader) (sheet : string) : M world DataFrame :=
  w <- get ;;
  match files w !! reader_path reader with
  | Some (Xlsx wb) =>
      match List.find (fun s => String.eqb (fst s) sheet) wb with
      | Some s => ret (snd s)
      | None => raise (ValueError ("Worksheet named '" +:+ sheet +:+ "' not found"))
      end
  | Some NoBytes => raise BadZipFile
  | None => raise (Exc "FileNotFoundError" (reader_path reader) None)
  end.

(** [df.to_excel(writer, sheet_name=sheet, index=False)] *)
Definition to_sheet (writer : Writer) (sheet : string) (df : DataFrame)
    : Writer :=
  mkWriter (writer_path writer) (written writer ++ [(sheet, df)]).

(** [writer.save()] *)
Definition save (writer : Writer) : M world unit :=
  modify (write_file (writer_path writer) (Xlsx (written writer))).

(** [df[col]]: the cells of a column. *)
Definition column {S} (df : DataFrame) (col : string) (missing : exc)
    : M S (list string) :=
  if bool_decide (col ∈ columns df)
  then ret (map (fun r => default EmptyString (r !! col)) (rows df))
  else raise missing.

(** [df[df[col].isin(values)]], for a column that exists. *)
Definition where_isin (df : DataFrame) (col : string) (values : list string)
    : DataFrame :=
  mkDataFrame (columns df)
    (List.filter (fun r => bool_decide (default EmptyString (r !! col) ∈ values))
                 (rows df)).

Definition remove : list string :=
  ["land"; "mapping_macro_sector"; "sector"; "MERtoPPP"; "aeei";
   "cost_MESSAGE"; "demand"; "demand_MESSAGE"; "depr"; "esub"; "grow";
   "historical_gdp"; "kgdp"; "lotol"; "prfconst"; "kpvs"; "lakl";
   "price_MESSAGE"; "gdp_calibrate"].

(** [any(i in s for i in remove)] *)
Definition excluded (s : string) : bool :=
  existsb (fun i => contains i s) remove.

Definition src_model : string := "ENGAGE_SSP2_v4.1.7".
Definition src_scenario : string := "baseline".
Definition technology : string := "coal_ppl".
Definition nodes : list string := ["R11_AFR"; "R11_CPA"].
Definition dest_file : string :=
  src_model +:+ "_" +:+ src_scenario +:+ "_" +:+ technology +:+ ".xlsx".

Definition filters : Filters :=
  [("technology", [technology]); ("node", nodes); ("node_dest", nodes);
   ("node_loc", nodes); ("node_origin", nodes)].

(** The body of the loop over the sheets that are kept. *)
Definition clean_sheet {S} (scen : Scenario) (sheet : string) (df : DataFrame)
    : M S DataFrame :=
  if String.eqb sheet "ix_type_mapping" then
    items <- column df "item" (AttributeError "item") ;;
    ret (where_isin df "item"
           (List.filter (fun i => negb (excluded i)) items))
  else if bool_decide (sheet ∈ par_list scen) then
    (* Filter out data for selected regions *)
    match List.filter (contains "node") (idx_names scen sheet) with
    | node_idx0 :: _ =>
        _ <- column df node_idx0 (KeyError node_idx0) ;;
        ret (where_isin df node_idx0 nodes)
    | [] => ret df
    end
  else ret df.

(** The loop over the sheets that are kept: parse, clean, write. *)
Fixpoint export_sheets (scen : Scenario) (reader : Reader) (writer : Writer)
    (sheets : list string) : M world Writer :=
  match sheets with
  | [] => ret writer
  | sheet :: more =>
      df0 <- parse reader sheet ;;
      df <- clean_sheet scen sheet df0 ;;
      export_sheets scen reader (to_sheet writer sheet df) more
  end.

Definition export_test_data : M world unit :=
  scen <- load_Scenario src_model src_scenario ;;
  (* Dump data to Excel file *)
  modify (write_file dest_file (Xlsx (to_excel scen filters))) ;;;
  (* Copy data from temporary Excel file to outfile, thereby omitting all
     unnecessary sheets *)
  reader <- ExcelFile dest_file ;;
  (* Remove all sheets that include the following *)
  writer <- ExcelWriter dest_file ;;
  writer <- export_sheets scen reader writer
              (List.filter (fun s => negb (excluded s)) (sheet_names reader)) ;;
  save writer.

(** *** What the clean-up is meant to leave

    Written from the description of the algorithm: a sheet is dropped
    when its name matches the exclusion list; a row of the sheet
    [ix_type_mapping] is kept when its item does not match that list; a
    row of a parameter sheet is kept when its node-like column lies in
    the node set; every other row is kept. *)
Definition row_kept (scen : Scenario) (sheet : string)
    (r : gmap string string) : bool :=
  if String.eqb sheet "ix_type_mapping" then
    negb (excluded (default EmptyString (r !! "item")))
  else if bool_decide (sheet ∈ par_list scen) then
    match List.filter (contains "node") (idx_names scen sheet) with
    | c :: _ => bool_decide (default EmptyString (r !! c) ∈ nodes)
    | [] => true
    end
  else true.

Definition cleaned (scen : Scenario) (sheets : Workbook) : Workbook :=
  map (fun s => (fst s, mkDataFrame (columns (snd s))
                          (List.filter (row_kept scen (fst s)) (rows (snd s)))))
      (List.filter (fun s => negb (excluded (fst s))) sheets).

(** The columns that the clean-up reads are there. *)
Definition readable (scen : Scenario) (s : string * DataFrame) : bool :=
  if String.eqb (fst s) "ix_type_mapping" then
    bool_decide ("item" ∈ columns (snd s))
  else if bool_decide (fst s ∈ par_list scen) then
    match List.filter (contains "node") (idx_names scen (fst s)) with
    | c :: _ => bool_decide (c ∈ columns (snd s))
    | [] => true
    end
  else true.

End ExportData.

(** ** Concrete inputs *)

Module Samples.

Definition empty_context : Context :=
  mkContext ∅ (mkPath "/" ["home"; "u"; "cache"]) (mkPath "/" ["home"; "u"]) ∅ ∅.

(** A backend whose database is always reached. *)
Definition reachable : Session.Backend := fun _ => None.

Definition argv_local_cache : list string := ["--local-cache"].

Definition tmp_root : Path := mkPath "/" ["tmp"; "pytest-0"].

(** One failing and one passing test. *)
Definition two_tests : list Session.test :=
  [("test_fails", raise (AssertionError EmptyString)); ("test_passes", ret tt)].

Definition world0 : Session.world :=
  Session.mkWorld empty_context ∅ ∅ 0 [].

(** A small scenario to export: a mapping sheet, a macro parameter, a
    parameter with a node column and a set. *)
Definition row (cells : list (string * string)) : gmap string string :=
  list_to_map cells.

Definition small_workbook : ExportData.Workbook :=
  [("ix_type_mapping",
    ExportData.mkDataFrame ["item"; "ix_type"]
      [row [("item", "demand"); ("ix_type", "par")];
       row [("item", "output"); ("ix_type", "par")];
       row [("item", "technology"); ("ix_type", "set")]]);
   ("demand",
    ExportData.mkDataFrame ["node"; "value"]
      [row [("node", "R11_AFR"); ("value", "1")]]);
   ("output",
    ExportData.mkDataFrame ["node_loc"; "technology"; "node_dest"; "value"]
      [row [("node_loc", "R11_AFR"); ("technology", "coal_ppl");
            ("node_dest", "R11_AFR"); ("value", "1")];
       row [("node_loc", "R11_WEU"); ("technology", "coal_ppl");
            ("node_dest", "R11_CPA"); ("value", "1")]]);
   ("technology",
    ExportData.mkDataFrame ["technology"]
      [row [("technology", "coal_ppl")]])].

Definition small_scenario : ExportData.Scenario :=
  ExportData.mkScenario
    (fun _ => small_workbook)
    ["demand"; "output"]
    (fun p => if String.eqb p "output"
              then ["node_loc"; "technology"; "node_dest"]
              else ["node"]).

Definition small_world : ExportData.world :=
  ExportData.mkWorld
    {[ (ExportData.src_model, ExportData.src_scenario) := small_scenario ]} ∅.

End Samples.

(** ** The remaining hooks and fixtures of [testing.py] *)

Module Hooks.

(** [logging.DEBUG] *)
Definition DEBUG : Z := 10.

(** [logging.getLogger(name).setLevel(level)], on the levels that the
    loggers of the process have been given. *)
Definition setLevel (name : string) (level : Z) (levels : gmap string Z)
    : gmap string Z :=
  <[name := level]> levels.

Definition quieted : list string :=
  ["pycountry.db"; "matplotlib.backends"; "matplotlib.font_manager"].

(** Quiet logs for some upstream packages. *)
Definition pytest_sessionstart (levels : gmap string Z) : gmap string Z :=
  fold_left (fun acc name => setLevel name (DEBUG + 1) acc) quieted levels.

(** [user_context]: disabled. *)
Definition user_context {S : Type} : M S Context :=
  raise (Exc "NotImplementedError" EmptyString None).

End Hooks.

(** ** Further concrete inputs *)

Module MoreSamples.

(** A backend whose database is never reached. *)
Definition unreachable : Session.Backend :=
  fun _ => Some (Exc "RuntimeError" "cannot start the JVM" None).

(** A stored result of a successful invocation. *)
Definition ok_result : Cli.Result := Cli.mkResult 0 None "done".

(** A stored result of a usage error, as [click] captures it. *)
Definition usage_error : exc := Exc "UsageError" "No such command 'foo'" None.

Definition usage_result : Cli.Result :=
  Cli.capture (Cli.RaisesClick usage_error 2).

Definition with_result (r : Cli.Result) : Cli.state unit :=
  Cli.mkState (Cli.mkRunner ∅ (Some r)) (Cli.mkProcess 30 tt).

(** A harness that sets the log level to 10 and succeeds on [ok], and
    lets a [KeyboardInterrupt] through otherwise. *)
Definition noisy_harness : Cli.Harness unit :=
  fun _ a p =>
    match Cli.args a with
    | [VList [VStr "ok"]] => (Return ok_result, Cli.mkProcess 10 tt)
    | _ => (Raise (Exc "KeyboardInterrupt" EmptyString None), Cli.mkProcess 10 tt)
    end.

Definition args_ok : Cli.call_args := Cli.mkArgs [VList [VStr "ok"]] [].
Definition args_other : Cli.call_args := Cli.mkArgs [VList [VStr "stop"]] [].

End MoreSamples.

(** ** The state that [bare_res] leaves *)

Module BareMore.
Import Bare.

(** The platform once the base is solved, if that was asked for and it
    was not. *)
Definition solved_db (solved : bool) (base : Scenario) (d : Db) : Db :=
  if solved && negb (default false (runs d !! key base))
  then mkDb (<[key base := true]> (runs d)) (defaults d) (last_version d)
  else d.

(** The clone that is made of [base] on the platform [d]. *)
Definition clone_of (request : option Session.Request) (base : Scenario)
    (d : Db) : Scenario :=
  mkScenario (model base) (new_name_of request)
    (next_version d (model base) (new_name_of request)).

(** The state once the base is solved as asked and cloned. *)
Definition after_clone (request : option Session.Request) (solved : bool)
    (base : Scenario) (s : state) : state :=
  mkState (context s)
    (set_as_default (clone_of request base (db s))
       (add_run (clone_of request base (db s)) solved
          (solved_db solved base (db s))))
    (calls s
       ++ (if solved && negb (default false (runs (db s) !! key base))
           then [Solve base [("lpmethod", 4)] true] else [])
       ++ [Clone base (new_name_of request) solved]).

Section States.
Context `{!BareModule}.

(** The state once "baseline" is looked up. *)
Definition loaded (s : state) : state :=
  record (Load (name (merged s)) "baseline") (set_context (merged s) s).

(** The base that is created when there is none. *)
Definition new_base (s : state) : Scenario :=
  mkScenario (name (merged s)) "baseline"
    (next_version (db s) (name (merged s)) "baseline").

(** The state once the base is created. *)
Definition created (s : state) : state :=
  record (Create (name (merged s)) "baseline")
    (set_db (set_as_default (new_base s) (add_run (new_base s) false (db s)))
       (set_context
          (set_scenario_info
             (list_to_map [("model", name (merged s)); ("scenario", "baseline")]
                ∪ scenario_info (merged s))
             (merged s))
          (loaded s))).

End States.

(** A module whose scenario name is read from the setting [regions]. *)
Definition by_regions : BareModule :=
  Build_BareModule
    {[ "regions" := VStr "R14" ]}
    (fun c => match options c !! "regions" with
              | Some (VStr r) => "MESSAGEix-GLOBIOM " +:+ r
              | _ => "MESSAGEix-GLOBIOM"
              end).

Definition empty_state : state :=
  mkState Samples.empty_context (mkDb ∅ ∅ ∅) [].

Definition request_of (n : string) : option Session.Request :=
  Some (Session.mkRequest (Session.mkConfig ∅ Samples.tmp_root) (Some n)).

End BareMore.

(** ** Further inputs for the export *)

Module ExportSamples.

(** A scenario whose mapping sheet comes without its [item] column. *)
Definition broken_workbook : ExportData.Workbook :=
  [("ix_type_mapping",
    ExportData.mkDataFrame ["name"; "ix_type"]
      [Samples.row [("name", "output"); ("ix_type", "par")]]);
   ("demand",
    ExportData.mkDataFrame ["node"; "value"]
      [Samples.row [("node", "R11_AFR"); ("value", "1")]])].

Definition broken_scenario : ExportData.Scenario :=
  ExportData.mkScenario (fun _ => broken_workbook) ["demand"] (fun _ => ["node"]).

Definition broken_world : ExportData.world :=
  ExportData.mkWorld
    {[ (ExportData.src_model, ExportData.src_scenario) := broken_scenario ]}
    {[ "notes.txt" := ExportData.NoBytes ]}.

Definition empty_world : ExportData.world := ExportData.mkWorld ∅ ∅.

End ExportSamples.

(** * Properties *)

(** ** Computations *)

Lemma bind_eq {S A B} (m : M S A) (k : A -> M S B) (s : S) :
  bind m k s = match m s with
               | (Return a, s') => k a s'
               | (Raise e, s') => (Raise e, s')
               end.
Proof. reflexivity. Qed.

(** ** The CLI test runner *)

Section CliProps.
Context {Env : Type} `{!Cli.Harness Env}.
Import Cli.

(** [invoke], step by step: the harness runs on the process, its result
    is stored, and the level found on entry is put back. *)
Lemma invoke_eq (a : call_args) (s : state Env) :
  invoke a s =
  match super_invoke (env (self s)) a (proc s) with
  | (Return r, p) =>
      (Return r, mkState (set_last_result r (self s))
                         (mkProcess (log_level (proc s)) (rest p)))
  | (Raise e, p) =>
      (Raise e, mkState (self s) (mkProcess (log_level (proc s)) (rest p)))
  end.
Proof.
  unfold invoke, preserve_log_level, try_finally, bind, get, on_process,
    modify, ret, set_level.
  cbn. destruct (super_invoke (env (self s)) a (proc s)) as [[r | e] p]; reflexivity.
Qed.

(** C2: whatever the harness does to the log level, and whether it
    returns a result (of any exit code) or raises, the level after
    [invoke] is the level before it; a result that the harness returns
    is returned by [invoke] and is the [last_result] afterwards, and the
    rest of the process is as the command left it. *)
Theorem invoke_restores_log_level (a : call_args) (s : state Env) :
  log_level (proc (snd (invoke a s))) = log_level (proc s) /\
  rest (proc (snd (invoke a s)))
    = rest (snd (super_invoke (env (self s)) a (proc s))) /\
  fst (invoke a s) = fst (super_invoke (env (self s)) a (proc s)) /\
  last_result (self (snd (invoke a s)))
    = match fst (super_invoke (env (self s)) a (proc s)) with
      | Return r => Some r
      | Raise _ => last_result (self s)
      end.
Proof.
  rewrite invoke_eq.
  destruct (super_invoke (env (self s)) a (proc s)) as [[r | e] p]; cbn; auto.
Qed.

(** Without arguments [assert_exit_0] does not call the harness: it
    looks at the stored result only. *)
Lemma assert_exit_0_stored (s : state Env) (r : Result) :
  last_result (self s) = Some r ->
  assert_exit_0 no_args s =
  if negb (exit_code r =? 0) then
    match exc_info r with
    | Some (_, v, _) => raise_object (exc_context v) s
    | None => (Raise (TypeError "'NoneType' object is not subscriptable"), s)
    end
  else (Return r, s).
Proof.
  intros Hr. unfold assert_exit_0, bind, get, ret. cbn. rewrite Hr.
  destruct (negb (exit_code r =? 0)); [|reflexivity].
  destruct (exc_info r) as [[[t v] tb]|]; reflexivity.
Qed.

(** With arguments it first calls [invoke] with them. *)
Lemma assert_exit_0_invokes (a : call_args) (s : state Env) :
  (length (args a) + length (kwargs a))%nat <> 0%nat ->
  assert_exit_0 a s =
  match invoke a s with
  | (Return _, s') => assert_exit_0 no_args s'
  | (Raise e, s') => (Raise e, s')
  end.
Proof.
  intros Hn. unfold assert_exit_0 at 1.
  destruct (Nat.eqb_spec (length (args a) + length (kwargs a)) 0) as [E | _];
    [contradiction|].
  unfold bind at 1 2. unfold ret at 1.
  destruct (invoke a s) as [[r | e] s']; reflexivity.
Qed.

(** An exit code 0 gives back the stored result. *)
Lemma assert_exit_0_returns (s : state Env) (r : Result) :
  last_result (self s) = Some r -> exit_code r = 0 ->
  assert_exit_0 no_args s = (Return r, s).
Proof.
  intros Hr H0. rewrite (assert_exit_0_stored s r Hr), H0. reflexivity.
Qed.

(** C10: on a runner that has not invoked anything, [assert_exit_0]
    without arguments raises [AttributeError]: [last_result] is not
    there to be read, and nothing else is done.  Only [invoke] puts it
    there: after a call that returns a result the attribute holds it,
    after one that raises it is still absent. *)
Theorem assert_exit_0_before_invoke (tmp_env : gmap string string)
    (p : process Env) (a : call_args) :
  assert_exit_0 no_args (mkState (mix_models_cli tmp_env) p) =
  (Raise (AttributeError "'CliRunner' object has no attribute 'last_result'"),
   mkState (mix_models_cli tmp_env) p) /\
  last_result (self (snd (invoke a (mkState (mix_models_cli tmp_env) p))))
  = match fst (invoke a (mkState (mix_models_cli tmp_env) p)) with
    | Return r => Some r
    | Raise _ => None
    end.
Proof.
  split.
  - unfold assert_exit_0. rewrite bind_eq. cbn [no_args args kwargs length].
    cbn [Nat.add Nat.eqb ret]. rewrite bind_eq. reflexivity.
  - rewrite invoke_eq. cbn [self env mix_models_cli proc].
    destruct (super_invoke tmp_env a p) as [[r | e] p']; reflexivity.
Qed.

End CliProps.

(** What [assert_exit_0] raises when the harness is [click]'s. *)
Section ClickProps.
Import Cli.
Variable main : list value -> behaviour * option Z.

(** A usage error, which [click] turns into [SystemExit], comes out as
    the usage error itself. *)
Lemma assert_exit_0_click_exception (argv : list value) (e : exc) (code lvl : Z) :
  code <> 0 -> main [VList argv] = (RaisesClick e code, Some lvl) ->
  fst (@assert_exit_0 unit (click_harness main) (mkArgs [VList argv] []) fresh)
    = Raise e.
Proof.
  intros Hc Hm.
  rewrite (@assert_exit_0_invokes unit (click_harness main)) by (cbn; lia).
  rewrite (@invoke_eq unit (click_harness main)).
  unfold super_invoke, click_harness. cbn. rewrite Hm. cbn.
  unfold assert_exit_0, bind, get, ret. cbn.
  destruct (Z.eqb_spec code 0); [contradiction|]. reflexivity.
Qed.

(** Any other exception is captured as it is, and what comes out is its
    [__context__]: the exception it was raised under, or a [TypeError]
    when there is none. *)
Lemma assert_exit_0_other_exception (argv : list value) (e : exc)
    (lvl : option Z) :
  main [VList argv] = (RaisesOther e, lvl) ->
  fst (@assert_exit_0 unit (click_harness main) (mkArgs [VList argv] []) fresh)
    = match exc_context e with
      | Some c => Raise c
      | None => Raise (TypeError "exceptions must derive from BaseException")
      end.
Proof.
  intros Hm.
  rewrite (@assert_exit_0_invokes unit (click_harness main)) by (cbn; lia).
  rewrite (@invoke_eq unit (click_harness main)).
  unfold super_invoke, click_harness. cbn. rewrite Hm. cbn.
  unfold assert_exit_0, bind, get, ret. cbn.
  by destruct (exc_context e).
Qed.

End ClickProps.

(** C1: when the command raises an exception of its own, the result
    that [click] captures holds that exception with no [__context__];
    [assert_exit_0] then raises a [TypeError] for raising [None], and
    not the exception of the command. *)
Theorem assert_exit_0_plain_exception :
  fst (@Cli.assert_exit_0 unit (Cli.click_harness Cli.failing_main)
         (Cli.mkArgs [VList [VStr "fail"]] []) Cli.fresh)
  = Raise (TypeError "exceptions must derive from BaseException") /\
  Cli.last_result
    (Cli.self (snd (@Cli.assert_exit_0 unit (Cli.click_harness Cli.failing_main)
                      (Cli.mkArgs [VList [VStr "fail"]] []) Cli.fresh)))
  = Some (Cli.mkResult 1
            (Some ("RuntimeError", Exc "RuntimeError" "boom" None, [])) EmptyString).
Proof. split; reflexivity. Qed.

(** ** Paths and the [Context] *)

Section PathProps.
Import Pathlib.

Lemma joinpath_nil (p : Path) : joinpath p [] = p.
Proof. destruct p as [r ns]. unfold joinpath. cbn. by rewrite app_nil_r. Qed.

(** Joining several parts at once is joining them one after the other. *)
Lemma joinpath_cons (p : Path) (s : string) (segs : list string) :
  joinpath p (s :: segs) = joinpath (truediv p s) segs.
Proof.
  unfold truediv, joinpath. cbn [parse_parts].
  destruct (parse_parts segs) as [r ns].
  destruct (String.eqb r EmptyString) eqn:Er; cbn [negb].
  - destruct (splitroot s) as [r1 rel]. cbn.
    destruct (String.eqb r1 EmptyString); cbn; rewrite ?Er; cbn;
      by rewrite ?app_nil_r, ?app_assoc.
  - destruct (splitroot s) as [r1 rel]. cbn.
    destruct (String.eqb r1 EmptyString); cbn; by rewrite ?Er.
Qed.

Lemma joinpath_fold (segs : list string) (p : Path) :
  joinpath p segs = fold_left truediv segs p.
Proof.
  revert p. induction segs as [|s segs IH]; intros p.
  - apply joinpath_nil.
  - rewrite joinpath_cons. apply IH.
Qed.

Lemma eqb_refl (p : Path) : Pathlib.eqb p p = true.
Proof.
  unfold Pathlib.eqb. rewrite String.eqb_refl. by rewrite bool_decide_true.
Qed.

End PathProps.

(** C5: for any [local_data] and any parts, [get_cache_path] is
    [local_data / "cache" / part / ...]; it reads no other field and no
    state.  In particular for the parts "pytest" and "bar.pkl", which is
    what [test_get_cache_path] asserts. *)
Theorem get_cache_path_joins (c : Context) (parts : list string) :
  get_cache_path c parts
    = fold_left truediv parts (truediv (local_data c) "cache") /\
  get_cache_path c ["pytest"; "bar.pkl"]
    = truediv (truediv (truediv (local_data c) "cache") "pytest") "bar.pkl" /\
  TestContext.test_get_cache_path c = (Return tt, c).
Proof.
  unfold get_cache_path. split; [|split].
  - rewrite joinpath_cons. apply joinpath_fold.
  - by rewrite !joinpath_cons, joinpath_nil.
  - unfold TestContext.test_get_cache_path, bind, get, get_cache_path. cbn.
    by rewrite eqb_refl.
Qed.

Lemma setdefault_unset (k : string) (d : value) (c : Context) :
  options c !! k = None ->
  setdefault k d c = (Return d, set_options (<[k := d]> (options c)) c).
Proof. intros Hk. unfold setdefault, bind, get. cbn. by rewrite Hk. Qed.

Lemma setdefault_set (k : string) (v d : value) (c : Context) :
  options c !! k = Some v -> setdefault k d c = (Return v, c).
Proof. intros Hk. unfold setdefault, bind, get. cbn. by rewrite Hk. Qed.

Lemma getattr_unset (k : string) (c : Context) :
  options c !! k = None -> getattr k c = (Raise (AttributeError k), c).
Proof. intros Hk. unfold getattr, bind, get. cbn. by rewrite Hk. Qed.

Lemma getattr_set (k : string) (v : value) (c : Context) :
  options c !! k = Some v -> getattr k c = (Return v, c).
Proof. intros Hk. unfold getattr, bind, get. cbn. by rewrite Hk. Qed.

(** C7: on a context where [k] is unset, [setdefault k v1] returns [v1]
    and stores it; a second [setdefault k v2] returns [v1] again and
    changes nothing; and wherever [k] has a value, [setdefault] returns
    that value and leaves the context as it is. *)
Theorem setdefault_keeps_first (k : string) (v1 v2 : value) (c : Context) :
  options c !! k = None ->
  fst (setdefault k v1 c) = Return v1 /\
  options (snd (setdefault k v1 c)) !! k = Some v1 /\
  setdefault k v2 (snd (setdefault k v1 c))
    = (Return v1, snd (setdefault k v1 c)) /\
  (forall (c' : Context) (v d : value),
     options c' !! k = Some v -> setdefault k d c' = (Return v, c')).
Proof.
  intros Hk. rewrite (setdefault_unset k v1 c Hk). cbn [fst snd].
  assert (Hl : options (set_options (<[k := v1]> (options c)) c) !! k = Some v1)
    by (cbn; apply lookup_insert_eq).
  repeat split; auto using setdefault_set.
Qed.

(** C8: attribute access for a key that is not set raises
    [AttributeError] and returns no value; the context stays as it is. *)
Theorem getattr_unset_raises (k : string) (c : Context) :
  options c !! k = None ->
  getattr k c = (Raise (AttributeError k), c).
Proof. apply getattr_unset. Qed.

(** [test_default_value] passes on every context without "foo". *)
Lemma test_default_value_passes (c : Context) :
  options c !! "foo" = None ->
  fst (TestContext.test_default_value c) = Return tt.
Proof.
  intros Hk. unfold TestContext.test_default_value.
  rewrite bind_eq. unfold TestContext.pytest_raises.
  rewrite (getattr_unset "foo" c Hk). cbn [exc_class AttributeError].
  cbn [String.eqb Ascii.eqb Bool.eqb].
  rewrite bind_eq, (setdefault_unset "foo" (VInt 23) c Hk).
  set (c1 := set_options (<["foo" := VInt 23]> (options c)) c).
  assert (Hl : options c1 !! "foo" = Some (VInt 23))
    by (cbn; apply lookup_insert_eq).
  rewrite bind_eq. cbn [TestContext.assert TestContext.value_eqb Z.eqb Pos.eqb ret].
  rewrite bind_eq, (setdefault_set "foo" (VInt 23) (VInt 45) c1 Hl).
  rewrite bind_eq. cbn [TestContext.assert TestContext.value_eqb Z.eqb Pos.eqb ret].
  rewrite bind_eq, (getattr_set "foo" (VInt 23) c1 Hl). reflexivity.
Qed.

Lemma setdefault_keeps_first_witness :
  options Samples.empty_context !! "foo" = None /\
  (fst (setdefault "foo" (VInt 23) Samples.empty_context) = Return (VInt 23) /\
   options (snd (setdefault "foo" (VInt 23) Samples.empty_context)) !! "foo"
     = Some (VInt 23) /\
   setdefault "foo" (VInt 45)
     (snd (setdefault "foo" (VInt 23) Samples.empty_context))
     = (Return (VInt 23), snd (setdefault "foo" (VInt 23) Samples.empty_context)) /\
   (forall (c' : Context) (v d : value),
      options c' !! "foo" = Some v -> setdefault "foo" d c' = (Return v, c'))).
Proof.
  split; [reflexivity|].
  apply (setdefault_keeps_first "foo" (VInt 23) (VInt 45) Samples.empty_context).
  reflexivity.
Defined.

Lemma getattr_unset_raises_witness :
  options Samples.empty_context !! "foo" = None /\
  getattr "foo" Samples.empty_context
    = (Raise (AttributeError "foo"), Samples.empty_context).
Proof.
  split; [reflexivity|].
  apply (getattr_unset_raises "foo" Samples.empty_context). reflexivity.
Defined.

(** ** The session fixtures *)

Section SessionProps.
Import Session.
Context `{!Backend}.

Lemma parse_local_cache (argv : list string) :
  parse_args (pytest_addoption []) argv !! "local_cache"
    = Some (VBool (bool_decide ("--local-cache" ∈ argv))).
Proof. unfold parse_args. cbn. apply lookup_insert_eq. Qed.

Lemma setup_eq (argv : list string) (tmp : Path) (w : world) :
  session_context_setup (session_request argv tmp) w =
  match jdbc_connect platform_entry with
  | Some e => (Raise e, registered argv tmp w)
  | None => (Return tt, yielded argv tmp w)
  end.
Proof.
  unfold session_context_setup.
  rewrite bind_eq. unfold mktemp at 1. rewrite bind_eq. cbn [get put ret bind].
  rewrite bind_eq. unfold config_option.
  cbn [config session_request opts].
  rewrite parse_local_cache. cbn [ret truthy].
  do 2 (rewrite bind_eq; cbn [modify]).
  rewrite bind_eq. unfold assign_platform at 1.
  rewrite bind_eq. cbn [get put].
  rewrite bind_eq. unfold Platform at 1. rewrite bind_eq.
  unfold connect at 1. rewrite bind_eq. cbn [get].
  cbn [emit set_platform_cfg set_only set_tmp_made platform_cfg only
       open_dbs tmp_made log].
  rewrite lookup_insert_eq.
  destruct (jdbc_connect platform_entry) as [e|] eqn:Hc; [reflexivity|].
  cbn [put ret]. rewrite bind_eq. unfold open_db at 1. rewrite bind_eq.
  cbn [get emit set_open_dbs open_dbs].
  rewrite bool_decide_true by set_solver.
  reflexivity.
Qed.

Lemma run_tests_eq (ts : list test) (w : world) :
  run_tests ts w =
  (Return tt, mkWorld (only w) (platform_cfg w) (open_dbs w) (tmp_made w)
                      (log w ++ map (test_event (only w)) ts)).
Proof.
  revert w. induction ts as [|t ts IH]; intros w.
  - cbn. rewrite app_nil_r. by destruct w.
  - cbn [run_tests]. rewrite bind_eq. unfold run_test at 1.
    rewrite bind_eq. cbn [get].
    destruct (snd t (deepcopy (only w))) as [o ctx'] eqn:Et.
    rewrite bind_eq. cbn [Context_delete ret modify].
    assert (Hev : test_event (only w) t = RanTest (fst t) (passed o))
      by (unfold test_event; by rewrite Et).
    rewrite IH. cbn [emit only platform_cfg open_dbs tmp_made log map].
    rewrite Hev. by rewrite <- app_assoc.
Qed.

Lemma count_test_events (e : event) (ctx : Context) (ts : list test) :
  (forall n b, e <> RanTest n b) ->
  count e (map (test_event ctx) ts) = 0%nat.
Proof.
  intros He. unfold count. induction ts as [|t ts IH]; [reflexivity|].
  cbn [map]. rewrite count_occ_cons_neq; [exact IH|].
  unfold test_event. intros E. exact (He _ _ (eq_sym E)).
Qed.

Lemma count_app (e : event) (l1 l2 : list event) :
  count e (l1 ++ l2) = (count e l1 + count e l2)%nat.
Proof. apply count_occ_app. Qed.

Lemma new_events_app (w w' : world) (evs : list event) :
  log w' = log w ++ evs -> new_events w w' = evs.
Proof. intros E. unfold new_events. rewrite E. apply drop_app_length. Qed.

Lemma close_db_eq (w : world) (n : string) :
  platform_info (only w) !! "name" = Some n -> n ∈ open_dbs w ->
  close_db w =
  (Return tt, mkWorld (only w) (platform_cfg w) (open_dbs w ∖ {[n]})
                      (tmp_made w) (log w ++ [CloseDb n])).
Proof.
  intros Hn Ho. unfold close_db. rewrite bind_eq. cbn [get]. rewrite Hn.
  by rewrite bool_decide_true.
Qed.

Lemma remove_platform_eq (w : world) (n : string) (info : gmap string string) :
  platform_cfg w !! n = Some info ->
  remove_platform n w =
  (Return tt, mkWorld (only w) (base.delete n (platform_cfg w)) (open_dbs w)
                      (tmp_made w) (log w ++ [RemovePlatform n])).
Proof.
  intros Hn. unfold remove_platform. rewrite bind_eq. cbn [get]. by rewrite Hn.
Qed.

Lemma session_eq (argv : list string) (tmp : Path) (ts : list test) (w : world) :
  jdbc_connect platform_entry = None ->
  run_session (session_request argv tmp) ts w =
  (Return tt,
   mkWorld (only (yielded argv tmp w))
           (base.delete platform_name (platform_cfg (yielded argv tmp w)))
           (open_dbs (yielded argv tmp w) ∖ {[platform_name]})
           (S (tmp_made w))
           (log w ++ session_events (only (yielded argv tmp w)) ts)).
Proof.
  intros Hc. unfold run_session.
  rewrite bind_eq, setup_eq, Hc.
  rewrite bind_eq, run_tests_eq.
  unfold session_context_teardown. rewrite bind_eq.
  rewrite (close_db_eq _ platform_name);
    [| cbn; apply lookup_insert_eq | cbn; set_solver].
  rewrite (remove_platform_eq _ platform_name platform_entry);
    [| cbn; apply lookup_insert_eq].
  cbn [only platform_cfg open_dbs tmp_made log yielded].
  unfold session_events. do 2 f_equal.
  rewrite <- !app_assoc. reflexivity.
Qed.

(** C3: in a session in which a test requests the fixture and the
    database can be reached, set-up writes the platform entry under the
    fixed name once and opens the connection; after the tests, however
    many there are and whether they pass or fail, tear-down closes the
    connection and removes the entry, once each, and nothing is left
    registered or open.  In a session without such a test the fixture
    is not created: nothing is written, opened, closed or removed. *)
Theorem fixture_registered_and_removed_once
    (argv : list string) (tmp : Path) (t : test) (ts : list test) (w : world) :
  jdbc_connect platform_entry = None ->
  let at_yield := session_context_setup (session_request argv tmp) w in
  let at_end := pytest_session (session_request argv tmp) (t :: ts) w in
  (fst at_yield = Return tt /\
   platform_cfg (snd at_yield) !! platform_name = Some platform_entry /\
   platform_name ∈ open_dbs (snd at_yield) /\
   new_events w (snd at_yield)
     = [AddPlatform platform_name; OpenDb platform_name]) /\
  (fst at_end = Return tt /\
   new_events w (snd at_end)
     = session_events (only (snd at_yield)) (t :: ts) /\
   count (AddPlatform platform_name) (new_events w (snd at_end)) = 1%nat /\
   count (OpenDb platform_name) (new_events w (snd at_end)) = 1%nat /\
   count (CloseDb platform_name) (new_events w (snd at_end)) = 1%nat /\
   count (RemovePlatform platform_name) (new_events w (snd at_end)) = 1%nat /\
   platform_cfg (snd at_end) !! platform_name = None /\
   platform_name ∉ open_dbs (snd at_end)) /\
  pytest_session (session_request argv tmp) [] w = (Return tt, w).
Proof.
  intros Hc at_yield at_end. subst at_yield at_end.
  cbn [pytest_session].
  rewrite (session_eq argv tmp (t :: ts) w Hc), setup_eq, Hc. cbn [fst snd].
  assert (Hev : new_events w
            (mkWorld (only (yielded argv tmp w))
               (base.delete platform_name (platform_cfg (yielded argv tmp w)))
               (open_dbs (yielded argv tmp w) ∖ {[platform_name]})
               (S (tmp_made w))
               (log w ++ session_events (only (yielded argv tmp w)) (t :: ts)))
            = session_events (only (yielded argv tmp w)) (t :: ts))
    by (apply new_events_app; reflexivity).
  rewrite Hev.
  assert (Hcount : forall e, (forall n b, e <> RanTest n b) ->
            count e (session_events (only (yielded argv tmp w)) (t :: ts))
            = (count e [AddPlatform platform_name; OpenDb platform_name]
               + count e [CloseDb platform_name; RemovePlatform platform_name])%nat).
  { intros e He. unfold session_events.
    rewrite !count_app, (count_test_events e _ (t :: ts) He). lia. }
  split_and!.
  - reflexivity.
  - cbn. apply lookup_insert_eq.
  - cbn. apply elem_of_union_l. by apply elem_of_singleton.
  - apply new_events_app. cbn. by rewrite <- app_assoc.
  - reflexivity.
  - reflexivity.
  - rewrite Hcount by discriminate. reflexivity.
  - rewrite Hcount by discriminate. reflexivity.
  - rewrite Hcount by discriminate. reflexivity.
  - rewrite Hcount by discriminate. reflexivity.
  - cbn. apply lookup_delete_eq.
  - cbn. intros [_ Hn]%elem_of_difference. apply Hn. by apply elem_of_singleton.
  - reflexivity.
Qed.

(** When the database cannot be reached, set-up raises the connection
    error as it is; the entry it wrote stays, since nothing after the
    [yield] is run. *)
Lemma setup_connection_error (argv : list string) (tmp : Path) (w : world)
    (e : exc) :
  jdbc_connect platform_entry = Some e ->
  fst (session_context_setup (session_request argv tmp) w) = Raise e /\
  platform_cfg (snd (session_context_setup (session_request argv tmp) w))
    !! platform_name = Some platform_entry.
Proof.
  intros Hc. rewrite setup_eq, Hc. split; [reflexivity|].
  cbn. apply lookup_insert_eq.
Qed.

(** C6: [pytest_addoption] adds the flag [--local-cache] as a
    [store_true] option, so that [option.local_cache] tells whether the
    flag was given; the session set-up sets the cache path to "cache"
    under the local-data directory the context had on entry when it was
    given, and under the temporary directory of the session when not. *)
Theorem local_cache_flag_chooses_cache_path
    (parser : Parser) (argv : list string) (tmp : Path) (w : world) :
  mkOpt "--local-cache" "store_true" "Use existing local cache files in tests"
    ∈ pytest_addoption parser /\
  opts (config (session_request argv tmp)) !! "local_cache"
    = Some (VBool (bool_decide ("--local-cache" ∈ argv))) /\
  cache_path (only (snd (session_context_setup (session_request argv tmp) w)))
    = truediv (if bool_decide ("--local-cache" ∈ argv)
               then local_data (only w)
               else truediv tmp ("data" +:+ pretty (tmp_made w)))
              "cache".
Proof.
  split; [|split].
  - unfold pytest_addoption, addoption. set_solver.
  - apply parse_local_cache.
  - rewrite setup_eq. by destruct (jdbc_connect platform_entry).
Qed.

End SessionProps.

Lemma fixture_registered_and_removed_once_witness :
  @Session.jdbc_connect Samples.reachable Session.platform_entry = None /\
  Session.new_events Samples.world0
    (snd (@Session.pytest_session Samples.reachable
            (Session.session_request Samples.argv_local_cache Samples.tmp_root)
            Samples.two_tests Samples.world0))
  = [Session.AddPlatform "message-ix-models";
     Session.OpenDb "message-ix-models";
     Session.RanTest "test_fails" false;
     Session.RanTest "test_passes" true;
     Session.CloseDb "message-ix-models";
     Session.RemovePlatform "message-ix-models"].
Proof.
  split; [reflexivity|].
  destruct (@fixture_registered_and_removed_once Samples.reachable
              Samples.argv_local_cache Samples.tmp_root
              ("test_fails", raise (AssertionError EmptyString))
              [("test_passes", ret tt)]
              Samples.world0 eq_refl) as (_ & (_ & Hev & _) & _).
  exact Hev.
Defined.

(** The claim as it was made fails on two sessions: one whose database
    cannot be reached, where the entry is written once and never
    removed, and one without a test, where it is never written. *)
Lemma every_session_registers_and_removes_once_fails :
  (count_occ Session.event_eq_dec
     (Session.new_events Samples.world0
        (snd (@Session.pytest_session MoreSamples.unreachable
                (Session.session_request Samples.argv_local_cache
                   Samples.tmp_root)
                Samples.two_tests Samples.world0)))
     (Session.AddPlatform Session.platform_name) = 1%nat /\
   count_occ Session.event_eq_dec
     (Session.new_events Samples.world0
        (snd (@Session.pytest_session MoreSamples.unreachable
                (Session.session_request Samples.argv_local_cache
                   Samples.tmp_root)
                Samples.two_tests Samples.world0)))
     (Session.RemovePlatform Session.platform_name) = 0%nat /\
   Session.platform_cfg
     (snd (@Session.pytest_session MoreSamples.unreachable
             (Session.session_request Samples.argv_local_cache
                Samples.tmp_root)
             Samples.two_tests Samples.world0))
     !! Session.platform_name = Some Session.platform_entry) /\
  (count_occ Session.event_eq_dec
     (Session.new_events Samples.world0
        (snd (@Session.pytest_session Samples.reachable
                (Session.session_request Samples.argv_local_cache
                   Samples.tmp_root)
                [] Samples.world0)))
     (Session.AddPlatform Session.platform_name) = 0%nat /\
   count_occ Session.event_eq_dec
     (Session.new_events Samples.world0
        (snd (@Session.pytest_session Samples.reachable
                (Session.session_request Samples.argv_local_cache
                   Samples.tmp_root)
                [] Samples.world0)))
     (Session.RemovePlatform Session.platform_name) = 0%nat).
Proof. repeat split; reflexivity. Qed.

(** ** The scenario builder helper *)

Section BareProps.
Import Bare.
Context `{!BareModule}.

Lemma load_found (m sc : string) (v : nat) (s : state) :
  defaults (db s) !! (m, sc) = Some v ->
  load_Scenario m sc s = (Return (mkScenario m sc v), record (Load m sc) s).
Proof.
  intros Hd. unfold load_Scenario, bind, modify, get, record. cbn [db].
  by rewrite Hd.
Qed.

Lemma load_missing (m sc : string) (s : state) :
  defaults (db s) !! (m, sc) = None ->
  exists e, exc_class e = "ValueError" /\
    load_Scenario m sc s = (Raise e, record (Load m sc) s).
Proof.
  intros Hd. eexists. split;
    [|unfold load_Scenario, bind, modify, get, record; cbn [db]; rewrite Hd;
      reflexivity].
  reflexivity.
Qed.

Lemma create_res_eq (m sc : string) (s : state) :
  scenario_info (context s) !! "model" = Some m ->
  scenario_info (context s) !! "scenario" = Some sc ->
  create_res s =
  (Return (mkScenario m sc (next_version (db s) m sc)),
   record (Create m sc)
     (set_db (set_as_default (mkScenario m sc (next_version (db s) m sc))
                (add_run (mkScenario m sc (next_version (db s) m sc)) false
                   (db s))) s)).
Proof.
  intros Hm Hs. unfold create_res. rewrite bind_eq. cbn [get].
  rewrite Hm, Hs. reflexivity.
Qed.

Lemma node_name_eq (request : option Session.Request) (s : state) :
  try_except (node_name request) "AttributeError" (ret "baseline") s
  = (Return (new_name_of request), s).
Proof.
  unfold try_except, node_name, new_name_of.
  destruct request as [[cfg [n|]]|]; reflexivity.
Qed.

Lemma baseline_info_model (nm : string) (si : gmap string string) :
  (list_to_map [("model", nm); ("scenario", "baseline")] ∪ si) !! "model"
  = Some nm.
Proof. apply lookup_union_Some_l. cbn. apply lookup_insert_eq. Qed.

Lemma baseline_info_scenario (nm : string) (si : gmap string string) :
  (list_to_map [("model", nm); ("scenario", "baseline")] ∪ si) !! "scenario"
  = Some "baseline".
Proof.
  apply lookup_union_Some_l. cbn.
  rewrite lookup_insert_ne by discriminate. apply lookup_insert_eq.
Qed.

(** The part of [bare_res] after the base scenario is at hand. *)
Lemma solve_and_clone (request : option Session.Request) (solved : bool)
    (base : Scenario) (s : state) :
  let had := default false (runs (db s) !! key base) in
  let new := mkScenario (model base) (new_name_of request)
               (next_version (db s) (model base) (new_name_of request)) in
  exists s',
    ((if solved
      then solution <- has_solution base ;;
           if negb solution then solve base [("lpmethod", 4)] true else ret tt
      else ret tt) ;;;
     new_name <- try_except (node_name request) "AttributeError"
                   (ret "baseline") ;;
     clone base new_name solved) s = (Return new, s') /\
    calls s' = calls s
                 ++ (if solved && negb had
                     then [Solve base [("lpmethod", 4)] true] else [])
                 ++ [Clone base (new_name_of request) solved] /\
    runs (db s') !! key new = Some solved /\
    context s' = context s.
Proof.
  intros had new. subst had new.
  destruct solved.
  - destruct (default false (runs (db s) !! key base)) eqn:Hh.
    + eexists. split_and!.
      * rewrite bind_eq. rewrite bind_eq. unfold has_solution at 1.
        rewrite bind_eq. cbn [get ret]. rewrite Hh. cbn [negb ret].
        rewrite bind_eq, node_name_eq. unfold clone. rewrite bind_eq.
        cbn [get]. rewrite bind_eq. cbn [put ret]. reflexivity.
      * reflexivity.
      * cbn. rewrite lookup_insert_eq. by rewrite Hh.
      * reflexivity.
    + eexists. split_and!.
      * rewrite bind_eq. rewrite bind_eq. unfold has_solution at 1.
        rewrite bind_eq. cbn [get ret]. rewrite Hh. cbn [negb].
        unfold solve. cbn [modify].
        rewrite bind_eq, node_name_eq. unfold clone. rewrite bind_eq.
        cbn [get]. rewrite bind_eq. cbn [put ret]. reflexivity.
      * cbn. by rewrite <- app_assoc.
      * cbn. rewrite lookup_insert_eq. by rewrite lookup_insert_eq.
      * reflexivity.
  - eexists. split_and!.
    + rewrite bind_eq. cbn [ret].
      rewrite bind_eq, node_name_eq. unfold clone. rewrite bind_eq.
      cbn [get]. rewrite bind_eq. cbn [put ret]. reflexivity.
    + reflexivity.
    + cbn. by rewrite lookup_insert_eq.
    + reflexivity.
Qed.

(** C4: [bare_res] always returns.  It looks up "baseline" under the
    name derived from the context with the defaults merged in; if there
    is none (a [ValueError]) it creates it; if [solved] is asked for and
    the base has no solution it solves the base with [lpmethod=4] and
    [quiet=True]; and it returns the clone of the base made under the
    name of the test node, or "baseline" without one, which has a
    solution exactly when [solved] is true. *)
Theorem bare_res_looks_up_solves_and_clones
    (request : option Session.Request) (solved : bool) (s : state) :
  let nm := name (merged s) in
  let found := defaults (db s) !! (nm, "baseline") in
  let base := mkScenario nm "baseline"
                (default (next_version (db s) nm "baseline") found) in
  let had := match found with
             | Some _ => default false (runs (db s) !! key base)
             | None => false
             end in
  exists (new : Scenario) (s' : state),
    bare_res request solved s = (Return new, s') /\
    model new = nm /\
    scenario new = new_name_of request /\
    calls s' = calls s
                 ++ [Load nm "baseline"]
                 ++ match found with
                    | Some _ => []
                    | None => [Create nm "baseline"]
                    end
                 ++ (if solved && negb had
                     then [Solve base [("lpmethod", 4)] true] else [])
                 ++ [Clone base (new_name_of request) solved] /\
    runs (db s') !! key new = Some solved.
Proof.
  intros nm found base had.
  unfold bare_res. rewrite bind_eq.
  change (use_defaults SETTINGS s) with (Return tt, set_context (merged s) s).
  cbv iota. rewrite bind_eq. cbn [get].
  change (name (context (set_context (merged s) s))) with nm.
  rewrite bind_eq.
  destruct (defaults (db s) !! (nm, "baseline")) as [v|] eqn:Hf;
    subst found; cbn [default] in base.
  - unfold try_except at 1.
    rewrite (load_found nm "baseline" v) by exact Hf.
    destruct (solve_and_clone request solved base
                (record (Load nm "baseline") (set_context (merged s) s)))
      as (s' & Hrun & Hcalls & Hruns & _).
    exists (mkScenario nm (new_name_of request)
              (next_version (db s) nm (new_name_of request))), s'.
    split_and!; try reflexivity.
    + exact Hrun.
    + rewrite Hcalls. cbn [calls record set_context db].
      subst had. by rewrite <- !app_assoc.
    + exact Hruns.
  - unfold try_except at 1.
    destruct (load_missing nm "baseline" (set_context (merged s) s) Hf)
      as (e & He & Hl).
    rewrite Hl, He. cbn [String.eqb Ascii.eqb Bool.eqb].
    rewrite bind_eq. cbn [modify].
    set (s1 := record (Load nm "baseline") (set_context (merged s) s)).
    set (s2 := set_context
                 (set_scenario_info
                    (list_to_map [("model", nm); ("scenario", "baseline")]
                       ∪ scenario_info (context s1)) (context s1)) s1).
    pose (s3 := record (Create nm "baseline")
                  (set_db (set_as_default base (add_run base false (db s)))
                     s2)).
    assert (Hc : create_res s2 = (Return base, s3)).
    { rewrite (create_res_eq nm "baseline" s2).
      - reflexivity.
      - apply baseline_info_model.
      - apply baseline_info_scenario. }
    rewrite Hc.
    destruct (solve_and_clone request solved base s3)
      as (s' & Hrun & Hcalls & Hruns & _).
    eexists _, s'.
    split_and!.
    + exact Hrun.
    + reflexivity.
    + reflexivity.
    + rewrite Hcalls.
      assert (Hb : runs (db s3) !! key base = Some false)
        by (cbn; apply lookup_insert_eq).
      rewrite Hb. cbn [default negb].
      subst had. cbn [calls s3 s2 s1 record set_context set_db].
      by rewrite <- !app_assoc.
    + exact Hruns.
Qed.

End BareProps.

(** ** The data export helper *)

Section ExportProps.
Import ExportData.

(** Selecting the rows whose value is among the values of the column
    that pass a test is selecting the rows whose value passes it. *)
Lemma filter_isin_filter {A B : Type} `{EqDecision B} (f : A -> B)
    (good : B -> bool) (l : list A) :
  List.filter (fun r => bool_decide (f r ∈ List.filter good (map f l))) l
  = List.filter (fun r => good (f r)) l.
Proof.
  apply filter_ext_in. intros r Hr.
  destruct (good (f r)) eqn:Hg.
  - apply bool_decide_eq_true. apply list_elem_of_In, filter_In.
    split; [|exact Hg]. by apply in_map.
  - apply bool_decide_eq_false. intros Hin.
    apply list_elem_of_In, filter_In in Hin. destruct Hin as [_ Hg'].
    congruence.
Qed.

Lemma filter_all {A : Type} (f : A -> bool) (l : list A) :
  (forall x, f x = true) -> List.filter f l = l.
Proof.
  intros Hf. induction l as [|x l IH]; [reflexivity|].
  cbn. by rewrite Hf, IH.
Qed.

Lemma clean_sheet_eq {S : Type} (scen : Scenario) (sheet : string)
    (df : DataFrame) (s : S) :
  readable scen (sheet, df) = true ->
  clean_sheet scen sheet df s
  = (Return (mkDataFrame (columns df)
               (List.filter (row_kept scen sheet) (rows df))), s).
Proof.
  unfold readable, clean_sheet, row_kept. cbn [fst snd].
  destruct (String.eqb sheet "ix_type_mapping").
  - intros Hc. rewrite bind_eq. unfold column. rewrite Hc. cbn [ret].
    unfold where_isin. cbn [columns rows].
    rewrite (filter_isin_filter (fun r => default EmptyString (r !! "item"))
               (fun i => negb (excluded i))).
    reflexivity.
  - destruct (bool_decide (sheet ∈ par_list scen)).
    + destruct (List.filter (contains "node") (idx_names scen sheet))
        as [|c rest].
      * intros _. cbn [ret]. rewrite filter_all by reflexivity.
        by destruct df.
      * intros Hc. rewrite bind_eq. unfold column. rewrite Hc. reflexivity.
    + intros _. cbn [ret]. rewrite filter_all by reflexivity.
      by destruct df.
Qed.

(** On a file that stays as it is, the loop writes the sheets it is
    given, each one cleaned. *)
Lemma export_sheets_intact (scen : Scenario) (reader : Reader) (wb : Workbook)
    (sheets : Workbook) (writer : Writer) (w : world) :
  files w !! reader_path reader = Some (Xlsx wb) ->
  (forall s, In s sheets ->
     List.find (fun s' => String.eqb (fst s') (fst s)) wb = Some s) ->
  forallb (readable scen) sheets = true ->
  export_sheets scen reader writer (map fst sheets) w
  = (Return (mkWriter (writer_path writer)
               (written writer
                  ++ map (fun sh => (fst sh,
                                     mkDataFrame (columns (snd sh))
                                       (List.filter (row_kept scen (fst sh))
                                          (rows (snd sh)))))
                         sheets)), w).
Proof.
  intros Hfile. revert writer.
  induction sheets as [|[sheet df] more IH]; intros writer Hfind Hr.
  - cbn. rewrite app_nil_r. by destruct writer.
  - cbn [forallb] in Hr. apply andb_prop in Hr as [Hr Hm].
    cbn [map fst export_sheets]. rewrite bind_eq.
    unfold parse at 1. rewrite bind_eq. cbn [get]. rewrite Hfile.
    pose proof (Hfind (sheet, df) (or_introl eq_refl)) as Hf.
    cbn [fst] in Hf. rewrite Hf. cbn [ret snd].
    rewrite bind_eq, (clean_sheet_eq scen sheet df w Hr).
    rewrite IH; [|intros s Hs; apply Hfind; by right|exact Hm].
    unfold to_sheet. cbn [writer_path written map fst snd].
    by rewrite <- app_assoc.
Qed.

Lemma cleaned_names (scen : Scenario) (sheets : Workbook) :
  map fst (cleaned scen sheets)
  = List.filter (fun n => negb (excluded n)) (map fst sheets).
Proof.
  unfold cleaned. rewrite map_map. cbn [fst].
  induction sheets as [|[n df] more IH]; [reflexivity|].
  cbn [List.filter map fst]. destruct (negb (excluded n)); cbn [map fst];
    by rewrite IH.
Qed.

Lemma cleaned_sheet (scen : Scenario) (sheets : Workbook) (n : string)
    (df' : DataFrame) :
  In (n, df') (cleaned scen sheets) ->
  exists df, In (n, df) sheets /\ excluded n = false /\
    columns df' = columns df /\
    rows df' = List.filter (row_kept scen n) (rows df).
Proof.
  unfold cleaned. intros Hin. apply in_map_iff in Hin.
  destruct Hin as ([n0 df] & Heq & Hin). cbn [fst snd] in Heq.
  apply filter_In in Hin. destruct Hin as [Hin Hex]. cbn [fst] in Hex.
  injection Heq as -> <-. exists df. split_and!; auto.
  by apply negb_true_iff.
Qed.

End ExportProps.

(** C9: with the source scenario on the platform, the dump is written
    and the reader opened on it, but the writer is then opened on the
    same path, which empties the file; the first sheet that is parsed
    is read from that empty file, so [export_test_data] raises
    [BadZipFile] and leaves a file without content: no sheet is dropped
    or filtered and no cleaned workbook is written back. *)
Theorem export_test_data_empties_its_file :
  ExportData.export_test_data Samples.small_world
  = (Raise ExportData.BadZipFile,
     ExportData.write_file ExportData.dest_file ExportData.NoBytes
       Samples.small_world) /\
  ExportData.files (snd (ExportData.export_test_data Samples.small_world))
    !! ExportData.dest_file = Some ExportData.NoBytes.
Proof. split; reflexivity. Qed.

(** ** The definitions on small inputs *)

Example joinpath_relative :
  joinpath (mkPath "/" ["home"; "u"]) ["cache"; "pytest"; "bar.pkl"]
  = mkPath "/" ["home"; "u"; "cache"; "pytest"; "bar.pkl"].
Proof. reflexivity. Qed.

Example joinpath_anchored :
  joinpath (mkPath "/" ["a"]) ["b/c"; "/d/./e"; "f"] = mkPath "/" ["d"; "e"; "f"].
Proof. reflexivity. Qed.

Example of_string_double_slash :
  Pathlib.of_string "//srv/x" = mkPath "//" ["srv"; "x"] /\
  Pathlib.of_string "///srv//x/" = mkPath "/" ["srv"; "x"].
Proof. split; reflexivity. Qed.

Example dest_local_cache : Session.dest "--local-cache" = "local_cache".
Proof. reflexivity. Qed.

Example contains_substring :
  ExportData.contains "grow" "growth_activity_up" = true /\
  ExportData.contains "node" "node_loc" = true /\
  ExportData.contains "sector" "ix_type_mapping" = false /\
  ExportData.contains EmptyString EmptyString = true.
Proof. repeat split; reflexivity. Qed.

Example excluded_sheets :
  map ExportData.excluded
      ["demand"; "growth_activity_up"; "land_use"; "output"; "ix_type_mapping"]
  = [true; true; true; false; false].
Proof. reflexivity. Qed.

Example export_small_sheets :
  map (fun s => (fst s, length (ExportData.rows (snd s))))
      (ExportData.cleaned Samples.small_scenario Samples.small_workbook)
  = [("ix_type_mapping", 2%nat); ("output", 1%nat); ("technology", 1%nat)].
Proof. reflexivity. Qed.

Example test_deepcopy_passes :
  TestContext.test_deepcopy Samples.empty_context tt = (Return tt, tt).
Proof. reflexivity. Qed.

(** A usage error of the command line comes out of [assert_exit_0] as
    itself. *)
Example assert_exit_0_usage_error :
  fst (@Cli.assert_exit_0 unit
         (Cli.click_harness
            (fun _ => (Cli.RaisesClick
                         (Exc "UsageError" "No such command 'foo'" None) 2,
                       Some 10)))
         (Cli.mkArgs [VList [VStr "foo"; VStr "bar"]] []) Cli.fresh)
  = Raise (Exc "UsageError" "No such command 'foo'" None).
Proof. reflexivity. Qed.

(** A command that returns leaves its result to be asserted later. *)
Example assert_exit_0_after_invoke :
  let h := Cli.click_harness Cli.failing_main in
  let s1 := snd (@Cli.invoke unit h (Cli.mkArgs [VList [VStr "ok"]] []) Cli.fresh) in
  @Cli.assert_exit_0 unit h Cli.no_args s1
  = (Return (Cli.mkResult 0 None "ok"), s1).
Proof. reflexivity. Qed.

Example bare_res_on_empty_platform :
  let B := Bare.Build_BareModule ∅ (fun _ => "MESSAGEix-GLOBIOM R14 2020:10:2110") in
  let r := @Bare.bare_res B None true
             (Bare.mkState Samples.empty_context (Bare.mkDb ∅ ∅ ∅) []) in
  fst r = Return (Bare.mkScenario "MESSAGEix-GLOBIOM R14 2020:10:2110" "baseline" 2) /\
  Bare.calls (snd r)
  = [Bare.Load "MESSAGEix-GLOBIOM R14 2020:10:2110" "baseline";
     Bare.Create "MESSAGEix-GLOBIOM R14 2020:10:2110" "baseline";
     Bare.Solve (Bare.mkScenario "MESSAGEix-GLOBIOM R14 2020:10:2110" "baseline" 1)
       [("lpmethod", 4)] true;
     Bare.Clone (Bare.mkScenario "MESSAGEix-GLOBIOM R14 2020:10:2110" "baseline" 1)
       "baseline" true].
Proof. split; reflexivity. Qed.

(** * Further properties *)

(** ** The CLI test runner *)

Section CliMore.
Context {Env : Type} `{!Cli.Harness Env}.
Import Cli.

Lemma assert_exit_0_nonzero (s : state Env) (r : Result) (t : string)
    (v : exc) (tb : traceback) :
  last_result (self s) = Some r -> exit_code r <> 0 ->
  exc_info r = Some (t, v, tb) ->
  assert_exit_0 no_args s = raise_object (exc_context v) s.
Proof.
  intros Hr Hc Hi. rewrite (assert_exit_0_stored s r Hr), Hi.
  by destruct (Z.eqb_spec (exit_code r) 0).
Qed.

(** X1: without arguments, a stored result with exit code 0 is returned
    as it is; the harness is not run and neither the runner nor the
    process changes. *)
Theorem stored_success_is_returned (s : state Env) (r : Result) :
  last_result (self s) = Some r -> exit_code r = 0 ->
  assert_exit_0 no_args s = (Return r, s).
Proof.
  intros Hr H0. rewrite (assert_exit_0_stored s r Hr).
  apply Z.eqb_eq in H0. by rewrite H0.
Qed.

(** X2: without arguments, a stored result with a non-zero exit code
    whose captured exception was raised while another one was being
    handled makes [assert_exit_0] raise that other exception, the
    [__context__]; the harness is not run and neither the runner nor
    the process changes. *)
Theorem stored_failure_raises_context (s : state Env) (r : Result)
    (t : string) (v c : exc) (tb : traceback) :
  last_result (self s) = Some r -> exit_code r <> 0 ->
  exc_info r = Some (t, v, tb) -> exc_context v = Some c ->
  assert_exit_0 no_args s = (Raise c, s).
Proof.
  intros Hr Hc Hi Hx.
  rewrite (assert_exit_0_nonzero s r t v tb Hr Hc Hi), Hx. reflexivity.
Qed.

(** X3: with arguments, the result that is asserted is the one of the
    invocation just made, whatever was stored before: when the harness
    returns a result with exit code 0, that result is returned and is
    the stored one afterwards, and the log level is the one on entry. *)
Theorem fresh_success_is_returned (a : call_args) (s : state Env)
    (r : Result) (p : process Env) :
  (length (args a) + length (kwargs a))%nat <> 0%nat ->
  super_invoke (env (self s)) a (proc s) = (Return r, p) ->
  exit_code r = 0 ->
  assert_exit_0 a s =
  (Return r, mkState (set_last_result r (self s))
                     (mkProcess (log_level (proc s)) (rest p))).
Proof.
  intros Hn Hh H0. rewrite (assert_exit_0_invokes a s Hn), invoke_eq, Hh.
  rewrite (assert_exit_0_stored _ r) by reflexivity.
  apply Z.eqb_eq in H0. by rewrite H0.
Qed.

(** X4: an exception that escapes the harness escapes [assert_exit_0]
    unchanged; the result stored before, if any, stays where it is, so a
    later call without arguments looks at that older result. *)
Theorem harness_error_keeps_stored_result (a : call_args) (s : state Env)
    (e : exc) (p : process Env) :
  (length (args a) + length (kwargs a))%nat <> 0%nat ->
  super_invoke (env (self s)) a (proc s) = (Raise e, p) ->
  fst (assert_exit_0 a s) = Raise e /\
  self (snd (assert_exit_0 a s)) = self s /\
  fst (assert_exit_0 no_args (snd (assert_exit_0 a s)))
    = fst (assert_exit_0 no_args s).
Proof.
  intros Hn Hh. rewrite (assert_exit_0_invokes a s Hn), invoke_eq, Hh.
  cbn [fst snd self]. split_and!; try reflexivity.
  unfold assert_exit_0, bind, get, ret. cbn [no_args args kwargs length
    Nat.add Nat.eqb self].
  destruct (last_result (self s)) as [r|]; [|reflexivity].
  destruct (negb (exit_code r =? 0)); [|reflexivity].
  destruct (exc_info r) as [[[t v] tb]|]; [|reflexivity].
  by destruct (exc_context v).
Qed.

(** X5: [assert_exit_0] leaves the log level as it found it, for every
    argument list, every stored result and every harness, whether it
    returns or raises. *)
Theorem assert_exit_0_keeps_log_level (a : call_args) (s : state Env) :
  log_level (proc (snd (assert_exit_0 a s))) = log_level (proc s).
Proof.
  assert (Hno : forall s0 : state Env, snd (assert_exit_0 no_args s0) = s0).
  { intros s0. unfold assert_exit_0, bind, get, ret.
    cbn [no_args args kwargs length Nat.add Nat.eqb].
    destruct (last_result (self s0)) as [r|]; [|reflexivity].
    destruct (negb (exit_code r =? 0)); [|reflexivity].
    destruct (exc_info r) as [[[t v] tb]|]; [|reflexivity].
    by destruct (exc_context v). }
  destruct (Nat.eq_dec (length (args a) + length (kwargs a))%nat 0%nat)
    as [E | Hn].
  - assert (Ha : assert_exit_0 a s = assert_exit_0 no_args s).
    { unfold assert_exit_0. rewrite E. reflexivity. }
    by rewrite Ha, Hno.
  - rewrite (assert_exit_0_invokes a s Hn), invoke_eq.
    destruct (super_invoke (env (self s)) a (proc s)) as [[r | e] p];
      [|reflexivity].
    by rewrite Hno.
Qed.

End CliMore.

Lemma stored_success_is_returned_witness :
  Cli.last_result (Cli.self (MoreSamples.with_result MoreSamples.ok_result))
    = Some MoreSamples.ok_result /\
  Cli.exit_code MoreSamples.ok_result = 0 /\
  @Cli.assert_exit_0 unit MoreSamples.noisy_harness Cli.no_args
     (MoreSamples.with_result MoreSamples.ok_result)
  = (Return MoreSamples.ok_result,
     MoreSamples.with_result MoreSamples.ok_result).
Proof.
  split; [reflexivity|]. split; [reflexivity|].
  apply (@stored_success_is_returned unit MoreSamples.noisy_harness);
    reflexivity.
Defined.

Lemma stored_failure_raises_context_witness :
  Cli.last_result (Cli.self (MoreSamples.with_result MoreSamples.usage_result))
    = Some MoreSamples.usage_result /\
  Cli.exit_code MoreSamples.usage_result <> 0 /\
  Cli.exc_info MoreSamples.usage_result
    = Some ("SystemExit", Cli.SystemExit 2 (Some MoreSamples.usage_error), []) /\
  exc_context (Cli.SystemExit 2 (Some MoreSamples.usage_error))
    = Some MoreSamples.usage_error /\
  @Cli.assert_exit_0 unit MoreSamples.noisy_harness Cli.no_args
    (MoreSamples.with_result MoreSamples.usage_result)
  = (Raise MoreSamples.usage_error,
     MoreSamples.with_result MoreSamples.usage_result).
Proof.
  split; [reflexivity|]. split; [discriminate|].
  split; [reflexivity|]. split; [reflexivity|].
  apply (@stored_failure_raises_context unit MoreSamples.noisy_harness
           (MoreSamples.with_result MoreSamples.usage_result)
           MoreSamples.usage_result "SystemExit"
           (Cli.SystemExit 2 (Some MoreSamples.usage_error))
           MoreSamples.usage_error []);
    [reflexivity | discriminate | reflexivity | reflexivity].
Defined.

Lemma fresh_success_is_returned_witness :
  (length (Cli.args MoreSamples.args_ok)
   + length (Cli.kwargs MoreSamples.args_ok))%nat <> 0%nat /\
  @Cli.super_invoke unit MoreSamples.noisy_harness ∅ MoreSamples.args_ok
     (Cli.mkProcess 30 tt)
    = (Return MoreSamples.ok_result, Cli.mkProcess 10 tt) /\
  Cli.exit_code MoreSamples.ok_result = 0 /\
  @Cli.assert_exit_0 unit MoreSamples.noisy_harness MoreSamples.args_ok
     (MoreSamples.with_result MoreSamples.usage_result)
  = (Return MoreSamples.ok_result,
     MoreSamples.with_result MoreSamples.ok_result).
Proof.
  split; [discriminate|]. split; [reflexivity|]. split; [reflexivity|].
  apply (@fresh_success_is_returned unit MoreSamples.noisy_harness
           MoreSamples.args_ok
           (MoreSamples.with_result MoreSamples.usage_result)
           MoreSamples.ok_result (Cli.mkProcess 10 tt));
    [discriminate | reflexivity | reflexivity].
Defined.

Lemma harness_error_keeps_stored_result_witness :
  (length (Cli.args MoreSamples.args_other)
   + length (Cli.kwargs MoreSamples.args_other))%nat <> 0%nat /\
  @Cli.super_invoke unit MoreSamples.noisy_harness ∅ MoreSamples.args_other
     (Cli.mkProcess 30 tt)
    = (Raise (Exc "KeyboardInterrupt" EmptyString None), Cli.mkProcess 10 tt) /\
  fst (@Cli.assert_exit_0 unit MoreSamples.noisy_harness MoreSamples.args_other
         (MoreSamples.with_result MoreSamples.ok_result))
    = Raise (Exc "KeyboardInterrupt" EmptyString None).
Proof.
  split; [discriminate|]. split; [reflexivity|].
  apply (@harness_error_keeps_stored_result unit MoreSamples.noisy_harness
           MoreSamples.args_other
           (MoreSamples.with_result MoreSamples.ok_result)
           (Exc "KeyboardInterrupt" EmptyString None) (Cli.mkProcess 10 tt));
    [discriminate | reflexivity].
Defined.

(** ** The hooks and the session fixtures *)

(** X6: [pytest_sessionstart] gives the three upstream loggers the level
    [DEBUG + 1] and leaves the level of every other logger as it is;
    running it again changes nothing. *)
Theorem pytest_sessionstart_quiets_three (levels : gmap string Z)
    (name : string) :
  Hooks.pytest_sessionstart levels !! name
    = (if bool_decide (name ∈ Hooks.quieted) then Some 11
       else levels !! name) /\
  Hooks.pytest_sessionstart (Hooks.pytest_sessionstart levels)
    = Hooks.pytest_sessionstart levels.
Proof.
  assert (Hl : forall (l : gmap string Z) (n : string),
            Hooks.pytest_sessionstart l !! n
            = if bool_decide (n ∈ Hooks.quieted) then Some 11 else l !! n).
  { intros l n. unfold Hooks.pytest_sessionstart, Hooks.quieted, Hooks.setLevel.
    cbn [fold_left]. change (Hooks.DEBUG + 1) with 11.
    destruct (decide (n = "matplotlib.font_manager")) as [-> | H3];
      [by rewrite lookup_insert_eq|].
    rewrite lookup_insert_ne by congruence.
    destruct (decide (n = "matplotlib.backends")) as [-> | H2];
      [by rewrite lookup_insert_eq|].
    rewrite lookup_insert_ne by congruence.
    destruct (decide (n = "pycountry.db")) as [-> | H1];
      [by rewrite lookup_insert_eq|].
    rewrite lookup_insert_ne by congruence.
    rewrite bool_decide_false; [reflexivity|].
    rewrite !elem_of_cons, elem_of_nil. tauto. }
  split; [apply Hl|].
  apply map_eq. intros n. rewrite !Hl. by destruct (bool_decide _).
Qed.

Section SessionMore.
Import Session.
Context `{!Backend}.

(** X7: when the database cannot be reached, the session stops in
    set-up with the connection error as it was raised: no test is run
    and nothing after the [yield] either, so the platform entry that was
    written stays in the configuration, and the context keeps the
    temporary directory as its local data. *)
Theorem connection_error_aborts_session (argv : list string) (tmp : Path)
    (ts : list test) (w : world) (e : exc) :
  jdbc_connect platform_entry = Some e ->
  fst (run_session (session_request argv tmp) ts w) = Raise e /\
  new_events w (snd (run_session (session_request argv tmp) ts w))
    = [AddPlatform platform_name] /\
  platform_cfg (snd (run_session (session_request argv tmp) ts w))
    !! platform_name = Some platform_entry /\
  open_dbs (snd (run_session (session_request argv tmp) ts w)) = open_dbs w /\
  local_data (only (snd (run_session (session_request argv tmp) ts w)))
    = truediv tmp ("data" +:+ pretty (tmp_made w)).
Proof.
  intros Hc. unfold run_session. rewrite bind_eq, setup_eq, Hc.
  cbn [fst snd]. split_and!; try reflexivity.
  - by apply new_events_app.
  - cbn. apply lookup_insert_eq.
Qed.

(** X8: a session whose database is reached leaves the platform
    configuration without the test entry and otherwise as it was, so
    exactly as it was when the name was free before, while an entry
    that was there under that name is lost; the connection under that
    name is closed; the context keeps the temporary directory as its
    local data and the platform name, and its options are untouched. *)
Theorem session_leaves_configuration (argv : list string) (tmp : Path)
    (ts : list test) (w : world) :
  jdbc_connect platform_entry = None ->
  let w' := snd (run_session (session_request argv tmp) ts w) in
  platform_cfg w' = base.delete platform_name (platform_cfg w) /\
  (platform_cfg w !! platform_name = None -> platform_cfg w' = platform_cfg w) /\
  open_dbs w' = open_dbs w ∖ {[platform_name]} /\
  local_data (only w') = truediv tmp ("data" +:+ pretty (tmp_made w)) /\
  platform_info (only w')
    = <["name" := platform_name]> (platform_info (only w)) /\
  options (only w') = options (only w) /\
  scenario_info (only w') = scenario_info (only w).
Proof.
  intros Hc w'. subst w'. rewrite (session_eq argv tmp ts w Hc).
  cbn [snd only platform_cfg open_dbs yielded].
  assert (Hd : base.delete platform_name
                 (<[platform_name := platform_entry]> (platform_cfg w))
               = base.delete platform_name (platform_cfg w))
    by apply delete_insert_eq.
  split_and!; try reflexivity.
  - exact Hd.
  - intros Hn. rewrite Hd. by apply delete_id.
  - apply leibniz_equiv. intros x.
    rewrite !elem_of_difference, elem_of_union. tauto.
Qed.

(** X9: when the option [local_cache] is not among the options of the
    session, set-up raises [AttributeError] right after the temporary
    directory is made: nothing is registered or opened and the context
    is untouched. *)
Theorem setup_without_option (request : Request) (w : world) :
  opts (config request) !! "local_cache" = None ->
  session_context_setup request w
  = (Raise (AttributeError "local_cache"), set_tmp_made (S (tmp_made w)) w).
Proof.
  intros Ho. unfold session_context_setup.
  rewrite bind_eq. unfold mktemp at 1. rewrite bind_eq. cbn [get put ret bind].
  rewrite bind_eq. unfold config_option. by rewrite Ho.
Qed.

End SessionMore.

Lemma connection_error_aborts_session_witness :
  @Session.jdbc_connect MoreSamples.unreachable Session.platform_entry
    = Some (Exc "RuntimeError" "cannot start the JVM" None) /\
  fst (@Session.run_session MoreSamples.unreachable
         (Session.session_request Samples.argv_local_cache Samples.tmp_root)
         Samples.two_tests Samples.world0)
    = Raise (Exc "RuntimeError" "cannot start the JVM" None).
Proof.
  split; [reflexivity|].
  apply (@connection_error_aborts_session MoreSamples.unreachable
           Samples.argv_local_cache Samples.tmp_root Samples.two_tests
           Samples.world0 (Exc "RuntimeError" "cannot start the JVM" None)).
  reflexivity.
Defined.

Lemma session_leaves_configuration_witness :
  @Session.jdbc_connect Samples.reachable Session.platform_entry = None /\
  Session.platform_cfg
    (snd (@Session.run_session Samples.reachable
            (Session.session_request Samples.argv_local_cache Samples.tmp_root)
            Samples.two_tests Samples.world0))
    = base.delete Session.platform_name (Session.platform_cfg Samples.world0).
Proof.
  split; [reflexivity|].
  destruct (@session_leaves_configuration Samples.reachable
              Samples.argv_local_cache Samples.tmp_root Samples.two_tests
              Samples.world0 eq_refl) as (Hcfg & _).
  exact Hcfg.
Defined.

Lemma setup_without_option_witness :
  Session.opts (Session.config
                  (Session.mkRequest (Session.mkConfig ∅ Samples.tmp_root) None))
    !! "local_cache" = None /\
  @Session.session_context_setup Samples.reachable
     (Session.mkRequest (Session.mkConfig ∅ Samples.tmp_root) None)
     Samples.world0
  = (Raise (AttributeError "local_cache"),
     Session.set_tmp_made 1 Samples.world0).
Proof.
  split; [reflexivity|].
  apply (@setup_without_option Samples.reachable
           (Session.mkRequest (Session.mkConfig ∅ Samples.tmp_root) None)
           Samples.world0).
  reflexivity.
Defined.

(** ** The scenario builder helper *)

Section BareMoreProps.
Import Bare BareMore.
Context `{!BareModule}.

Lemma solve_and_clone_eq (request : option Session.Request) (solved : bool)
    (base : Scenario) (s : state) :
  ((if solved
    then solution <- has_solution base ;;
         if negb solution then solve base [("lpmethod", 4)] true else ret tt
    else ret tt) ;;;
   new_name <- try_except (node_name request) "AttributeError"
                 (ret "baseline") ;;
   clone base new_name solved) s
  = (Return (clone_of request base (db s)), after_clone request solved base s).
Proof.
  unfold after_clone, solved_db, clone_of.
  destruct solved.
  - destruct (default false (runs (db s) !! key base)) eqn:Hh.
    + rewrite bind_eq. rewrite bind_eq. unfold has_solution at 1.
      rewrite bind_eq. cbn [get ret]. rewrite Hh. cbn [negb ret andb].
      rewrite bind_eq, node_name_eq. unfold clone. rewrite bind_eq.
      cbn [get]. rewrite bind_eq. cbn [put ret]. rewrite Hh. reflexivity.
    + rewrite bind_eq. rewrite bind_eq. unfold has_solution at 1.
      rewrite bind_eq. cbn [get ret]. rewrite Hh. cbn [negb andb].
      unfold solve. cbn [modify].
      rewrite bind_eq, node_name_eq. unfold clone. rewrite bind_eq.
      cbn [get]. rewrite bind_eq. cbn [put ret].
      cbn [db record set_db runs]. rewrite lookup_insert_eq.
      unfold ret, record, set_db, next_version, add_run, set_as_default, id.
      cbn [default andb calls context db runs defaults last_version
           model scenario version].
      by rewrite <- app_assoc.
  - rewrite bind_eq. cbn [ret andb].
    rewrite bind_eq, node_name_eq. unfold clone. rewrite bind_eq.
    cbn [get]. rewrite bind_eq. cbn [put ret]. reflexivity.
Qed.

Lemma bare_res_found (request : option Session.Request) (solved : bool)
    (s : state) (v : nat) :
  defaults (db s) !! (name (merged s), "baseline") = Some v ->
  bare_res request solved s
  = (Return (clone_of request (mkScenario (name (merged s)) "baseline" v) (db s)),
     after_clone request solved (mkScenario (name (merged s)) "baseline" v)
       (loaded s)).
Proof.
  intros Hf. unfold bare_res. rewrite bind_eq.
  change (use_defaults SETTINGS s) with (Return tt, set_context (merged s) s).
  cbv iota. rewrite bind_eq. cbn [get].
  change (name (context (set_context (merged s) s))) with (name (merged s)).
  rewrite bind_eq. unfold try_except at 1.
  rewrite (load_found (name (merged s)) "baseline" v) by exact Hf.
  exact (solve_and_clone_eq request solved _ (loaded s)).
Qed.

Lemma bare_res_created (request : option Session.Request) (solved : bool)
    (s : state) :
  defaults (db s) !! (name (merged s), "baseline") = None ->
  bare_res request solved s
  = (Return (clone_of request (new_base s) (db (created s))),
     after_clone request solved (new_base s) (created s)).
Proof.
  intros Hf. unfold bare_res. rewrite bind_eq.
  change (use_defaults SETTINGS s) with (Return tt, set_context (merged s) s).
  cbv iota. rewrite bind_eq. cbn [get].
  change (name (context (set_context (merged s) s))) with (name (merged s)).
  rewrite bind_eq. unfold try_except at 1.
  destruct (load_missing (name (merged s)) "baseline"
              (set_context (merged s) s) Hf) as (e & He & Hl).
  rewrite Hl, He. cbn [String.eqb Ascii.eqb Bool.eqb].
  rewrite bind_eq. cbn [modify].
  assert (Hc : create_res
                 (set_context
                    (set_scenario_info
                       (list_to_map
                          [("model", name (merged s)); ("scenario", "baseline")]
                          ∪ scenario_info (merged s))
                       (merged s))
                    (loaded s))
               = (Return (new_base s), created s)).
  { rewrite (create_res_eq (name (merged s)) "baseline").
    - reflexivity.
    - apply baseline_info_model.
    - apply baseline_info_scenario. }
  unfold loaded in Hc.
  cbn [context record set_context] in Hc |- *.
  rewrite Hc. exact (solve_and_clone_eq request solved _ (created s)).
Qed.

(** What [after_clone] keeps and what it sets. *)
Lemma after_clone_facts (request : option Session.Request) (solved : bool)
    (base : Scenario) (s : state) :
  context (after_clone request solved base s) = context s /\
  defaults (db (after_clone request solved base s))
    = <[(model base, new_name_of request)
        := version (clone_of request base (db s))]> (defaults (db s)) /\
  last_version (db (after_clone request solved base s))
    !! (model base, new_name_of request)
    = Some (version (clone_of request base (db s))) /\
  runs (db (after_clone request solved base s))
    !! key (clone_of request base (db s)) = Some solved /\
  (solved = true ->
   default false (runs (db (after_clone request solved base s)) !! key base)
   = true).
Proof.
  unfold after_clone, solved_db, clone_of, add_run, set_as_default.
  split_and!.
  - reflexivity.
  - cbn. by destruct (solved && negb _).
  - cbn. apply lookup_insert_eq.
  - cbn. apply lookup_insert_eq.
  - intros ->. cbn [andb db runs].
    set (k := key (mkScenario (model base) (new_name_of request)
                     (next_version (db s) (model base) (new_name_of request)))).
    destruct (decide (k = key base)) as [E | N].
    + rewrite E. by rewrite lookup_insert_eq.
    + rewrite lookup_insert_ne by exact N.
      destruct (default false (runs (db s) !! key base)) eqn:Hh;
        cbn [negb runs]; [exact Hh|].
      by rewrite lookup_insert_eq.
Qed.

Lemma merged_twice (c : Context) :
  (options c ∪ SETTINGS) ∪ SETTINGS = options c ∪ SETTINGS.
Proof. by rewrite <- (assoc_L (∪)), (idemp_L (∪) SETTINGS). Qed.

(** Whichever way the base comes about, [bare_res] ends in
    [after_clone] of a state in which a look-up finds the base. *)
Lemma bare_res_after (request : option Session.Request) (solved : bool)
    (s : state) :
  exists (base : Scenario) (s0 : state),
    bare_res request solved s
    = (Return (clone_of request base (db s0)),
       after_clone request solved base s0) /\
    base = mkScenario (name (merged s)) "baseline" (version base) /\
    options (context s0) = options (merged s) /\
    defaults (db s0) !! (name (merged s), "baseline") = Some (version base).
Proof.
  destruct (defaults (db s) !! (name (merged s), "baseline")) as [v|] eqn:Hf.
  - exists (mkScenario (name (merged s)) "baseline" v), (loaded s).
    split_and!; try reflexivity.
    + exact (bare_res_found request solved s v Hf).
    + exact Hf.
  - exists (new_base s), (created s).
    split_and!; try reflexivity.
    + exact (bare_res_created request solved s Hf).
    + cbn. apply lookup_insert_eq.
Qed.


End BareMoreProps.


(** ** The data export helper *)

Section ExportMore.
Import ExportData.

Lemma prefix_spec (n h : string) :
  String.prefix n h = true <-> exists b, h = n +:+ b.
Proof.
  revert h. induction n as [|c n IH]; intros h.
  - split; [intros _; by exists h|]. intros _. by destruct h.
  - destruct h as [|d h]; cbn.
    + split; [discriminate|]. intros [b Hb]. discriminate.
    + destruct (Ascii.ascii_dec c d) as [-> | Hn].
      * rewrite IH. split; intros [b Hb]; exists b.
        -- by rewrite Hb.
        -- by injection Hb.
      * split; [discriminate|]. intros [b Hb]. injection Hb as Hc _.
        congruence.
Qed.

(** [contains] is the substring test. *)
Lemma contains_spec (n h : string) :
  contains n h = true <-> exists a b, h = a +:+ n +:+ b.
Proof.
  split.
  - induction h as [|c h IH]; cbn [contains].
    + rewrite orb_false_r. intros [b Hb]%prefix_spec. by exists EmptyString, b.
    + intros [Hp | Hc]%orb_true_iff.
      * apply prefix_spec in Hp as [b Hb]. by exists EmptyString, b.
      * destruct (IH Hc) as (a & b & ->). by exists (String c a), b.
  - intros (a & b & ->). induction a as [|c a IH].
    + cbn [String.append]. destruct (n +:+ b) eqn:E; cbn [contains];
        apply orb_true_iff; left; apply prefix_spec; exists b; by rewrite E.
    + change (contains n (String c (a +:+ n +:+ b)) = true).
      assert (Hstep : forall d t, contains n (String d t)
                        = String.prefix n (String d t) || contains n t)
        by reflexivity.
      rewrite Hstep, IH. apply orb_true_r.
Qed.

(** X11: a sheet is left out exactly when one of the entries of the
    exclusion list occurs somewhere in its name: the match is by
    substring, so a name that merely contains "grow" or "land" goes as
    well. *)
Theorem excluded_iff_substring (s : string) :
  excluded s = true <->
  exists i a b, In i remove /\ s = a +:+ i +:+ b.
Proof.
  unfold excluded. rewrite existsb_exists. split.
  - intros (i & Hi & Hc). apply contains_spec in Hc as (a & b & ->).
    by exists i, a, b.
  - intros (i & a & b & Hi & ->). exists i. split; [exact Hi|].
    apply contains_spec. by exists a, b.
Qed.

Lemma clean_sheet_state {S : Type} (scen : Scenario) (sheet : string)
    (df : DataFrame) (s : S) :
  snd (clean_sheet scen sheet df s) = s.
Proof.
  unfold clean_sheet, column, bind, ret, raise.
  destruct (String.eqb sheet "ix_type_mapping").
  - by destruct (bool_decide ("item" ∈ columns df)).
  - destruct (bool_decide (sheet ∈ par_list scen)); [|reflexivity].
    destruct (List.filter (contains "node") (idx_names scen sheet))
      as [|c rest]; [reflexivity|].
    by destruct (bool_decide (c ∈ columns df)).
Qed.

Lemma parse_state (reader : Reader) (sheet : string) (w : world) :
  snd (parse reader sheet w) = w.
Proof.
  unfold parse, bind, get, ret, raise.
  destruct (files w !! reader_path reader) as [[wb|]|]; try reflexivity.
  by destruct (List.find _ wb).
Qed.

Lemma export_sheets_state (scen : Scenario) (reader : Reader)
    (sheets : list string) (writer : Writer) (w : world) :
  snd (export_sheets scen reader writer sheets w) = w.
Proof.
  revert writer. induction sheets as [|sheet more IH]; intros writer;
    [reflexivity|].
  cbn [export_sheets]. rewrite bind_eq.
  pose proof (parse_state reader sheet w) as Hp.
  destruct (parse reader sheet w) as [[df0 | e] w1]; cbn [snd] in Hp; subst w1;
    [|reflexivity].
  rewrite bind_eq.
  pose proof (clean_sheet_state scen sheet df0 w) as Hs.
  destruct (clean_sheet scen sheet df0 w) as [[df | e] w2]; cbn [snd] in Hs;
    subst w2; [|reflexivity].
  apply IH.
Qed.

Lemma export_sheets_path (scen : Scenario) (reader : Reader)
    (sheets : list string) (writer writer' : Writer) (w w' : world) :
  export_sheets scen reader writer sheets w = (Return writer', w') ->
  writer_path writer' = writer_path writer.
Proof.
  revert writer. induction sheets as [|sheet more IH]; intros writer.
  - cbn. intros [= <- _]. reflexivity.
  - cbn [export_sheets]. rewrite bind_eq.
    pose proof (parse_state reader sheet w) as Hp.
    destruct (parse reader sheet w) as [[df0 | e] w1]; cbn [snd] in Hp;
      subst w1; [|discriminate].
    rewrite bind_eq.
    pose proof (clean_sheet_state scen sheet df0 w) as Hs.
    destruct (clean_sheet scen sheet df0 w) as [[df | e] w2]; cbn [snd] in Hs;
      subst w2; [|discriminate].
    intros Hrun. by rewrite (IH _ Hrun).
Qed.

(** The sheets that the loop goes through. *)
Lemma kept_names (scen : Scenario) :
  List.filter (fun s => negb (excluded s))
    (map fst (to_excel scen filters))
  = map fst (List.filter (fun s => negb (excluded (fst s)))
               (to_excel scen filters)).
Proof.
  induction (to_excel scen filters) as [|[n df] more IH]; [reflexivity|].
  cbn [map fst List.filter]. destruct (negb (excluded n)); cbn [map fst];
    by rewrite IH.
Qed.

Lemma write_file_twice (path : string) (f g : File) (w : world) :
  write_file path g (write_file path f w) = write_file path g w.
Proof. unfold write_file. cbn [scenarios files]. by rewrite insert_insert_eq. Qed.

(** [export_test_data], step by step. *)
Lemma export_eq (w : world) (scen : Scenario) :
  scenarios w !! (src_model, src_scenario) = Some scen ->
  export_test_data w =
  match export_sheets scen
          (mkReader dest_file (map fst (to_excel scen filters)))
          (mkWriter dest_file [])
          (List.filter (fun s => negb (excluded s))
             (map fst (to_excel scen filters)))
          (write_file dest_file NoBytes w) with
  | (Return writer, _) =>
      (Return tt, write_file dest_file (Xlsx (written writer)) w)
  | (Raise e, _) => (Raise e, write_file dest_file NoBytes w)
  end.
Proof.
  intros Hs. unfold export_test_data. rewrite bind_eq.
  unfold load_Scenario. rewrite bind_eq. cbn [get]. rewrite Hs. cbn [ret].
  rewrite bind_eq. cbn [modify]. rewrite bind_eq.
  unfold ExcelFile. rewrite bind_eq. cbn [get write_file files].
  rewrite lookup_insert_eq. cbn [ret]. rewrite bind_eq.
  unfold ExcelWriter. rewrite bind_eq. cbn [modify ret sheet_names].
  rewrite write_file_twice, bind_eq.
  pose proof (export_sheets_state scen
                (mkReader dest_file (map fst (to_excel scen filters)))
                (List.filter (fun s => negb (excluded s))
                   (map fst (to_excel scen filters)))
                (mkWriter dest_file [])
                (write_file dest_file NoBytes w)) as Hst.
  destruct (export_sheets scen _ _ _ _) as [[writer | e] w1] eqn:Hrun;
    cbn [snd] in Hst; subst w1; [|reflexivity].
  apply export_sheets_path in Hrun. cbn [writer_path] in Hrun.
  unfold save, modify. by rewrite Hrun, write_file_twice.
Qed.

Lemma export_without_scenario_aux (w : world) :
  scenarios w !! (src_model, src_scenario) = None ->
  exists e, export_test_data w = (Raise e, w).
Proof.
  intros Hs. eexists. unfold export_test_data. rewrite bind_eq.
  unfold load_Scenario. rewrite bind_eq. cbn [get]. rewrite Hs. reflexivity.
Qed.

(** X12: without the source scenario on the platform,
    [export_test_data] raises the [ValueError] of the look-up and
    writes no file. *)
Theorem export_without_scenario (w : world) :
  scenarios w !! (src_model, src_scenario) = None ->
  exists e, exc_class e = "ValueError" /\ export_test_data w = (Raise e, w).
Proof.
  intros Hs. eexists. split; [|unfold export_test_data; rewrite bind_eq;
    unfold load_Scenario; rewrite bind_eq; cbn [get]; rewrite Hs; reflexivity].
  reflexivity.
Qed.

(** X13: with the source scenario on the platform and at least one
    sheet of the dump that is not left out, [export_test_data] raises
    [BadZipFile] at the first sheet it parses, because the writer was
    opened on the file that the reader reads from; the destination is
    left as a file without content, and the dump is lost. *)
Theorem export_empties_destination (w : world) (scen : Scenario) :
  scenarios w !! (src_model, src_scenario) = Some scen ->
  List.filter (fun s => negb (excluded s)) (map fst (to_excel scen filters))
    <> [] ->
  export_test_data w
  = (Raise BadZipFile, write_file dest_file NoBytes w).
Proof.
  intros Hs Hk. rewrite (export_eq w scen Hs).
  destruct (List.filter (fun s => negb (excluded s))
              (map fst (to_excel scen filters))) as [|sheet more];
    [contradiction|].
  cbn [export_sheets]. rewrite bind_eq. unfold parse. rewrite bind_eq.
  cbn [get reader_path write_file files]. rewrite lookup_insert_eq.
  reflexivity.
Qed.

(** X14: whether it returns or raises, [export_test_data] leaves the
    scenarios of the platform and every file other than its
    destination as they are. *)
Theorem export_touches_one_file (w : world) (path : string) :
  path <> dest_file ->
  scenarios (snd (export_test_data w)) = scenarios w /\
  files (snd (export_test_data w)) !! path = files w !! path.
Proof.
  intros Hp.
  destruct (scenarios w !! (src_model, src_scenario)) as [scen|] eqn:Hs.
  - rewrite (export_eq w scen Hs).
    destruct (export_sheets scen _ _ _ _) as [[writer | e] w1];
      cbn [snd write_file scenarios files]; (split; [reflexivity|]);
      by rewrite lookup_insert_ne by congruence.
  - destruct (export_without_scenario_aux w Hs) as (e & ->). by split.
Qed.

(** X15: a second run of [export_test_data] ends as the first run did
    and leaves what the first run left: the dump is taken from the
    scenario again and goes through the same steps. *)
Theorem export_twice_is_once (w : world) (scen : Scenario) :
  scenarios w !! (src_model, src_scenario) = Some scen ->
  forallb (readable scen)
    (List.filter (fun s => negb (excluded (fst s))) (to_excel scen filters))
    = true ->
  export_test_data (snd (export_test_data w)) = export_test_data w.
Proof.
  intros Hs _.
  assert (Hagain : forall f : File,
            export_test_data (write_file dest_file f w) = export_test_data w).
  { intros f. rewrite (export_eq w scen Hs).
    rewrite (export_eq (write_file dest_file f w) scen) by exact Hs.
    rewrite !write_file_twice.
    destruct (export_sheets scen _ _ _ _) as [[writer | e] w1];
      by rewrite ?write_file_twice. }
  rewrite (export_eq w scen Hs) at 1.
  destruct (export_sheets scen _ _ _ _) as [[writer | e] w1]; cbn [snd];
    apply Hagain.
Qed.

End ExportMore.

Lemma export_without_scenario_witness :
  ExportData.scenarios ExportSamples.empty_world
    !! (ExportData.src_model, ExportData.src_scenario) = None /\
  exists e, exc_class e = "ValueError" /\
    ExportData.export_test_data ExportSamples.empty_world
    = (Raise e, ExportSamples.empty_world).
Proof.
  split; [reflexivity|].
  apply (export_without_scenario ExportSamples.empty_world). reflexivity.
Defined.

Lemma export_empties_destination_witness :
  ExportData.scenarios ExportSamples.broken_world
    !! (ExportData.src_model, ExportData.src_scenario)
    = Some ExportSamples.broken_scenario /\
  List.filter (fun s => negb (ExportData.excluded s))
    (map fst (ExportData.to_excel ExportSamples.broken_scenario
                ExportData.filters))
    <> [] /\
  ExportData.export_test_data ExportSamples.broken_world
  = (Raise ExportData.BadZipFile,
     ExportData.write_file ExportData.dest_file ExportData.NoBytes
       ExportSamples.broken_world).
Proof.
  split; [reflexivity|]. split; [discriminate|].
  apply (export_empties_destination ExportSamples.broken_world
           ExportSamples.broken_scenario); [reflexivity | discriminate].
Defined.

Lemma export_touches_one_file_witness :
  "notes.txt" <> ExportData.dest_file /\
  ExportData.scenarios
    (snd (ExportData.export_test_data ExportSamples.broken_world))
    = ExportData.scenarios ExportSamples.broken_world /\
  ExportData.files
    (snd (ExportData.export_test_data ExportSamples.broken_world))
    !! "notes.txt"
    = ExportData.files ExportSamples.broken_world !! "notes.txt".
Proof.
  split; [discriminate|].
  apply (export_touches_one_file ExportSamples.broken_world "notes.txt").
  discriminate.
Defined.

Lemma export_twice_is_once_witness :
  ExportData.scenarios Samples.small_world
    !! (ExportData.src_model, ExportData.src_scenario)
    = Some Samples.small_scenario /\
  forallb (ExportData.readable Samples.small_scenario)
    (List.filter (fun s => negb (ExportData.excluded (fst s)))
       (ExportData.to_excel Samples.small_scenario ExportData.filters))
    = true /\
  ExportData.export_test_data
    (snd (ExportData.export_test_data Samples.small_world))
  = ExportData.export_test_data Samples.small_world.
Proof.
  split; [reflexivity|]. split; [reflexivity|].
  apply (export_twice_is_once Samples.small_world Samples.small_scenario);
    reflexivity.
Defined.

(** ** The tests of the context *)

(** X16: [test_default_value] passes exactly on the contexts in which
    "foo" is not set; where it is set, the test fails at its first
    step, because the attribute access does not raise. *)
Theorem test_default_value_passes_iff_unset (c : Context) :
  fst (TestContext.test_default_value c) = Return tt
  <-> options c !! "foo" = None.
Proof.
  split; [|apply test_default_value_passes].
  destruct (options c !! "foo") as [v|] eqn:Hk; [|reflexivity].
  unfold TestContext.test_default_value. rewrite bind_eq.
  unfold TestContext.pytest_raises.
  rewrite (getattr_set "foo" v c Hk). discriminate.
Qed.
